(** * Deployment hook scripts of the e-commerce CI/CD repository

    A shallow embedding of the deployment hook scripts

      - [before_install]            (src/deployment/validate_service.sh, second document)
      - [application_stop]          (src/deployment/application_stop.sh, first document)
      - [application_start]         (src/unnamed/part_001)
      - [application_start_variant] (src/deployment/application_stop.sh, second document)
      - [validate_service]          (src/deployment/validate_service.sh, first document)

    as programs of a small shell monad.  The external programs the scripts
    invoke (docker, aws, curl, yum, ...) are not part of the repository: they
    are an arbitrary machine [exec] over an arbitrary world type, so that a
    theorem about a script holds for every behaviour of those programs.

    The shopping cart of the page the scripts deploy
    (src/src/ecommerce-app/script.js) is embedded as functions on a record
    of the page's state, in the module [Shop]. *)

From Stdlib Require Import List String Ascii Bool Arith NArith ZArith Lia.
From Stdlib Require Import DecimalString DecimalNat.
Import ListNotations.
Local Open Scope string_scope.
Local Open Scope list_scope.
Local Open Scope nat_scope.

Set Implicit Arguments.

(** ** Text utilities: the filters the scripts pipe command output through *)

Definition newline : ascii := "010"%char.

Definition nl : string := String newline EmptyString.

(** The lines of a text; a final line needs no terminating newline. *)
Fixpoint lines (s : string) : list string :=
  match s with
  | EmptyString => []
  | String c s' =>
      if Ascii.eqb c newline then EmptyString :: lines s'
      else match lines s' with
           | [] => [String c EmptyString]
           | l :: ls => String c l :: ls
           end
  end.

Fixpoint unlines (ls : list string) : string :=
  match ls with
  | [] => EmptyString
  | l :: ls' => l ++ nl ++ unlines ls'
  end.

(** [contains pat s]: [pat] occurs in [s] as a substring. *)
Fixpoint contains (pat s : string) : bool :=
  String.prefix pat s ||
  match s with
  | EmptyString => false
  | String _ s' => contains pat s'
  end.

Definition lower_ascii (c : ascii) : ascii :=
  let n := nat_of_ascii c in
  if Nat.leb 65 n && Nat.leb n 90 then ascii_of_nat (n + 32) else c.

Fixpoint lower (s : string) : string :=
  match s with
  | EmptyString => EmptyString
  | String c s' => String (lower_ascii c) (lower s')
  end.

(** A line is selected by [grep 'p1\|p2\|...'] when one of the literal
    alternatives occurs in it; with [-i] letter case is ignored. *)
Definition line_matches (ci : bool) (pats : list string) (l : string) : bool :=
  existsb (fun p => if ci then contains (lower p) (lower l) else contains p l) pats.

Definition grep_lines (ci : bool) (pats : list string) (input : string) : list string :=
  filter (line_matches ci pats) (lines input).

(** Command substitution [$(...)] drops the trailing newlines of the output. *)
Fixpoint strip_trailing_newlines (s : string) : string :=
  match s with
  | EmptyString => EmptyString
  | String c s' =>
      match strip_trailing_newlines s' with
      | EmptyString => if Ascii.eqb c newline then EmptyString else String c EmptyString
      | r => String c r
      end
  end.

Definition show_nat (n : nat) : string := NilEmpty.string_of_uint (Nat.to_uint n).

Fixpoint no_newline (s : string) : Prop :=
  match s with
  | EmptyString => True
  | String c s' => c <> newline /\ no_newline s'
  end.




Definition nul : ascii := "000"%char.

(** GNU grep takes an input that holds a NUL byte for binary data. *)
Fixpoint binary (s : string) : bool :=
  match s with
  | EmptyString => false
  | String c s' => Ascii.eqb c nul || binary s'
  end.

(** Plain text: no NUL byte and no byte above 127, so that grep takes the
    input for text whatever the locale. *)
Fixpoint ascii_text (s : string) : bool :=
  match s with
  | EmptyString => true
  | String c s' =>
      negb (Ascii.eqb c nul) && Nat.ltb (nat_of_ascii c) 128 && ascii_text s'
  end.

(** [tail -n k] on a list of lines. *)
Definition lastn {A : Type} (k : nat) (l : list A) : list A := skipn (List.length l - k) l.

(** ** Commands and replies *)

(** What a command gives back: its exit status and what it wrote (standard
    output; the scripts either discard standard error or merge it with
    [2>&1], so one stream is kept). *)
Record Reply : Type := mkReply { status : nat; out : string }.

Definition ok (s : string) : Reply := mkReply 0 s.

(** The external command lines of the scripts.  [sudo] is part of the command
    line it prefixes and is not listed separately.

    A constructor stands for a command line of the source, and its
    arguments are the values of the variables (or the literal words) the
    line is written with.  Where the source expands a variable without
    quotes ([--region $AWS_REGION], [$AWS_ACCOUNT_ID.dkr.ecr. ...]) the shell
    splits the value at blanks, drops it when it is empty and expands
    wildcards in it before the program is started: that is part of running
    the command line, hence of what the machine answers for it, and the
    argument kept here is the value as the script holds it.  For a value
    that is one plain word (see [shell_word]) the program gets exactly
    that word. *)
Inductive Cmd : Type :=
| CommandV (prog : string)                  (* command -v prog *)
| YumUpdate                                 (* sudo yum update -y *)
| YumInstall (pkg : string)                 (* sudo yum install -y pkg *)
| SystemctlStart (unit_ : string)           (* sudo systemctl start unit *)
| SystemctlEnable (unit_ : string)          (* sudo systemctl enable unit *)
| Usermod (group user : string)             (* sudo usermod -a -G group user *)
| CurlDownload (url file : string)          (* curl url -o file *)
| Unzip (file : string)                     (* unzip file *)
| AwsInstall                                (* sudo ./aws/install *)
| DockerStop (name : string)                (* sudo docker stop name 2>/dev/null *)
| DockerRm (name : string)                  (* sudo docker rm name 2>/dev/null *)
| DockerPs                                  (* sudo docker ps *)
| DockerPsAll                               (* sudo docker ps -a *)
| DockerInspectStatus (name : string)       (* sudo docker inspect --format='{{.State.Status}}' name *)
| DockerLogs (name : string)                (* sudo docker logs name *)
| DockerLogin (user registry stdin : string)(* sudo docker login --username user --password-stdin $registry *)
| DockerPull (image : string)               (* sudo docker pull $image *)
| DockerRun (name port restart image : string)
                                            (* sudo docker run -d --name name -p port --restart restart $image *)
| CurlMetadata (url : string)               (* curl -s url *)
| AwsStsAccount (region : string)           (* aws sts get-caller-identity --query Account --output text --region $r *)
| AwsEcrDescribeRepositories (repo region : string)
                                            (* aws ecr describe-repositories --repository-names $repo --region $r *)
| AwsEcrGetLoginPassword (region : string)  (* aws ecr get-login-password --region $r *)
| CurlHttpCode (url : string)               (* curl -s -o /dev/null -w "%{http_code}" url *)
| CurlGet (url : string)                    (* curl -s url *)
| CurlTimeTotal (url : string)              (* curl -s -w "%{time_total}" -o /dev/null url *)
| CurlFail (url : string)                   (* curl -f -s url *)
| Sleep (seconds : nat).                    (* sleep seconds *)

(** What a run leaves behind, in order: each external command with its reply,
    and each piece of text printed on the script's standard output. *)
Inductive Event : Type :=
| Called (c : Cmd) (r : Reply)
| Print (text : string).

(** Filters at the end of a pipeline.  Bytes are compared as in the C
    locale. *)

(** [grep] exits 0 when a line is selected and writes the selected lines.
    Of binary input it writes no line: that such an input matches is said
    in a note on standard error (GNU grep 3.5 and later), which no pipeline
    of the scripts reads; the exit status is the same. *)
Definition grep (ci : bool) (pats : list string) (input : string) : Reply :=
  let sel := grep_lines ci pats input in
  mkReply (match sel with [] => 1 | _ :: _ => 0 end)
          (if binary input then EmptyString else unlines sel).

(** [grep -q] writes nothing and stops at the first selected line, binary
    input or not. *)
Definition grep_q (pats : list string) (input : string) : Reply :=
  mkReply (status (grep false pats input)) EmptyString.

Definition head_n (k : nat) (input : string) : Reply :=
  ok (unlines (firstn k (lines input))).

Definition tail_n (k : nat) (input : string) : Reply :=
  ok (unlines (lastn k (lines input))).

(** [wc -l] of the output of a [grep]: the number of selected lines. *)
Definition wc_l (input : string) : nat := List.length (lines input).

(** ** The shell monad *)

(** A script either runs on ([Ret]) or has left through [exit] or through
    [set -e] ([Exit] with the exit status). *)
Inductive Res (A : Type) : Type :=
| Ret (a : A)
| Exit (code : nat).

Arguments Ret {A} a.
Arguments Exit {A} code.

Section Shell.

(** The machine the scripts run on: any world, any behaviour of the
    external commands. *)
Variable W : Type.
Variable exec : Cmd -> W -> Reply * W.

Record Run (A : Type) : Type := mkRun {
  result : Res A;
  final : W;
  trace : list Event
}.

Definition Sh (A : Type) : Type := W -> Run A.

Definition ret {A : Type} (a : A) : Sh A := fun w => mkRun (Ret a) w [].

Definition bind {A B : Type} (m : Sh A) (k : A -> Sh B) : Sh B := fun w =>
  match m w with
  | mkRun (Ret a) w1 t1 =>
      match k a w1 with
      | mkRun r w2 t2 => mkRun r w2 (t1 ++ t2)
      end
  | mkRun (Exit n) w1 t1 => mkRun (Exit n) w1 t1
  end.

Definition exit {A : Type} (n : nat) : Sh A := fun w => mkRun (Exit n) w [].

Definition emit (evs : list Event) : Sh unit := fun w => mkRun (Ret tt) w evs.

(** What a command in statement position writes reaches the script's
    standard output (possibly nothing at all). *)
Definition print (s : string) : Sh unit := emit [Print s].

(** *** Commands: they give back a status and an output *)

Definition call (c : Cmd) : Sh Reply := fun w =>
  let (r, w') := exec c w in mkRun (Ret r) w' [Called c r].

Definition echo (s : string) : Sh Reply := ret (ok (s ++ nl)).

(** [m1 || m2]: [m2] runs only when [m1] fails; the status is that of the
    last command run, the outputs follow each other. *)
Definition or_else (m1 m2 : Sh Reply) : Sh Reply :=
  bind m1 (fun r1 =>
    if status r1 =? 0 then ret r1
    else bind m2 (fun r2 => ret (mkReply (status r2) (out r1 ++ out r2)))).

(** [m | f] for a filter [f]: the status of a pipeline is that of its last
    command (no script sets pipefail). *)
Definition pipe (m : Sh Reply) (f : string -> Reply) : Sh Reply :=
  bind m (fun r => ret (f (out r))).

(** [m | c] for an external command reading its standard input. *)
Definition pipe_into (m : Sh Reply) (c : string -> Cmd) : Sh Reply :=
  bind m (fun r => call (c (out r))).

(** [m > /dev/null] *)
Definition to_dev_null (m : Sh Reply) : Sh Reply :=
  bind m (fun r => ret (mkReply (status r) EmptyString)).

(** [! m] *)
Definition not_ (m : Sh Reply) : Sh Reply :=
  bind m (fun r => ret (mkReply (if status r =? 0 then 1 else 0) (out r))).

(** [[ ... ]] *)
Definition test (b : bool) : Sh Reply :=
  ret (mkReply (if b then 0 else 1) EmptyString).

(** [true] *)
Definition true_ : Sh Reply := ret (ok EmptyString).

(** *** Statements *)

(** A command in statement position: its output goes to the script's
    output, and under [set -e] ([errexit]) a failure ends the script with
    the failing status. *)
Definition run (errexit : bool) (m : Sh Reply) : Sh unit :=
  bind m (fun r =>
  bind (print (out r)) (fun _ =>
    if errexit && negb (status r =? 0) then exit (status r) else ret tt)).

(** [VAR=$(m)]: the status of the assignment is that of [m], so [set -e]
    applies to it; the value is the output without trailing newlines. *)
Definition assign (errexit : bool) (m : Sh Reply) : Sh string :=
  bind m (fun r =>
    if errexit && negb (status r =? 0) then exit (status r)
    else ret (strip_trailing_newlines (out r))).

(** [if c; then t; else e; fi]: the condition is exempt from [set -e]. *)
Definition if_ (c : Sh Reply) (t e : Sh unit) : Sh unit :=
  bind c (fun r =>
  bind (print (out r)) (fun _ =>
    if status r =? 0 then t else e)).

Definition skip : Sh unit := ret tt.

End Shell.

Arguments ret {W A} a.
Arguments exit {W A} n.
Arguments echo {W} s.
Arguments test {W} b.
Arguments true_ {W}.
Arguments skip {W}.
Arguments print {W} s.
Arguments emit {W} evs.

Declare Scope sh_scope.
Delimit Scope sh_scope with sh.
Notation "x <- m ;; k" := (bind m (fun x => k))
  (at level 61, m at next level, right associativity) : sh_scope.
Notation "m ;; k" := (bind m (fun _ => k))
  (at level 61, right associativity) : sh_scope.
Infix "<||>" := or_else (at level 50, left associativity) : sh_scope.
Local Open Scope sh_scope.

(** The exit status of a script that ends with a successful [echo] when it is
    not left earlier: every script below does. *)
Definition exit_status {A : Type} (r : Res A) : nat :=
  match r with
  | Ret _ => 0
  | Exit n => n
  end.

(** ** The scripts *)

Section Scripts.

Variable W : Type.
Variable exec : Cmd -> W -> Reply * W.

Local Abbreviation call := (call exec).

(** src/deployment/application_stop.sh, lines 1-18 *)
Definition application_stop : Sh W unit :=
  let sh := run true in                                      (* set -e *)
  sh (echo "Starting application_stop phase...") ;;
  sh (echo "Stopping Docker container...") ;;
  sh (call (DockerStop "ecommerce-app") <||> echo "Container was not running") ;;
  sh (echo "Removing Docker container...") ;;
  sh (call (DockerRm "ecommerce-app") <||> echo "Container was already removed") ;;
  sh (echo "Application stop phase completed successfully").

(** src/deployment/validate_service.sh, lines 83-113 *)
Definition before_install : Sh W unit :=
  let sh := run false in                                     (* no set -e *)
  sh (echo "Starting before_install phase...") ;;
  if_ (not_ (to_dev_null (call (CommandV "docker"))))
    (sh (echo "Installing Docker...") ;;
     sh (call YumUpdate) ;;
     sh (call (YumInstall "docker")) ;;
     sh (call (SystemctlStart "docker")) ;;
     sh (call (SystemctlEnable "docker")) ;;
     sh (call (Usermod "docker" "ec2-user")))
    (sh (echo "Docker is already installed") ;;
     sh (call (SystemctlStart "docker"))) ;;
  if_ (not_ (to_dev_null (call (CommandV "aws"))))
    (sh (echo "Installing AWS CLI...") ;;
     sh (call (CurlDownload "https://awscli.amazonaws.com/awscli-exe-linux-x86_64.zip" "awscliv2.zip")) ;;
     sh (call (Unzip "awscliv2.zip")) ;;
     sh (call AwsInstall))
    skip ;;
  sh (echo "Cleaning up existing containers...") ;;
  sh (call (DockerStop "ecommerce-app") <||> true_) ;;
  sh (call (DockerRm "ecommerce-app") <||> true_) ;;
  sh (echo "Before install phase completed successfully").

(** src/unnamed/part_001 *)
Definition application_start : Sh W unit :=
  let sh := run false in                                     (* no set -e *)
  sh (echo "Starting application_start phase...") ;;
  let AWS_REGION := "us-east-1" in
  let AWS_ACCOUNT_ID := "142595748980" in
  let IMAGE_REPO_NAME := "ecommerce-app" in
  let IMAGE_TAG := "latest" in
  let REGISTRY := (AWS_ACCOUNT_ID ++ ".dkr.ecr." ++ AWS_REGION ++ ".amazonaws.com")%string in
  let IMAGE := (REGISTRY ++ "/" ++ IMAGE_REPO_NAME ++ ":" ++ IMAGE_TAG)%string in
  sh (echo ("Using AWS Region: " ++ AWS_REGION)) ;;
  sh (echo ("Using AWS Account ID: " ++ AWS_ACCOUNT_ID)) ;;
  sh (echo "Cleaning up existing containers...") ;;
  sh (call (DockerStop "ecommerce-app") <||> true_) ;;
  sh (call (DockerRm "ecommerce-app") <||> true_) ;;
  sh (echo "Logging in to ECR...") ;;
  sh (pipe_into exec (call (AwsEcrGetLoginPassword AWS_REGION))
                     (DockerLogin "AWS" REGISTRY)) ;;
  sh (echo "Pulling Docker image from ECR...") ;;
  sh (call (DockerPull IMAGE)) ;;
  sh (echo "Starting Docker container...") ;;
  sh (call (DockerRun "ecommerce-app" "80:80" "unless-stopped" IMAGE)) ;;
  sh (echo "Waiting for container to start...") ;;
  sh (call (Sleep 10)) ;;
  if_ (pipe (call DockerPs) (grep_q ["ecommerce-app"]))
    (sh (echo "✅ Container started successfully"))
    (sh (echo "❌ Container failed to start") ;;
     sh (call (DockerLogs "ecommerce-app")) ;;
     exit 1) ;;
  sh (echo "Application start phase completed successfully").

(** src/deployment/application_stop.sh, lines 19-84.  The script expands
    AWS_REGION, AWS_ACCOUNT_ID and the two names without quotes in its
    command lines; the commands below hold the values (see [Cmd]). *)
Definition application_start_variant : Sh W unit :=
  let sh := run true in                                      (* set -e *)
  sh (echo "Starting application_start phase...") ;;
  AWS_REGION <- assign true
    (call (CurlMetadata "http://169.254.169.254/latest/meta-data/placement/region")
     <||> echo "us-east-1") ;;
  AWS_ACCOUNT_ID <- assign true (call (AwsStsAccount AWS_REGION)) ;;
  sh (echo ("Using AWS Region: " ++ AWS_REGION)) ;;
  sh (echo ("Using AWS Account ID: " ++ AWS_ACCOUNT_ID)) ;;
  let IMAGE_REPO_NAME := "ecommerce-app" in
  let IMAGE_TAG := "latest" in
  let REGISTRY := (AWS_ACCOUNT_ID ++ ".dkr.ecr." ++ AWS_REGION ++ ".amazonaws.com")%string in
  let IMAGE := (REGISTRY ++ "/" ++ IMAGE_REPO_NAME ++ ":" ++ IMAGE_TAG)%string in
  sh (echo "Checking ECR repository...") ;;
  if_ (not_ (to_dev_null (call (AwsEcrDescribeRepositories IMAGE_REPO_NAME AWS_REGION))))
    (sh (echo ("❌ ECR repository " ++ IMAGE_REPO_NAME ++ " does not exist")) ;;
     exit 1)
    skip ;;
  sh (echo "Logging in to ECR...") ;;
  sh (pipe_into exec (call (AwsEcrGetLoginPassword AWS_REGION))
                     (DockerLogin "AWS" REGISTRY)) ;;
  sh (echo "Pulling Docker image from ECR...") ;;
  sh (call (DockerPull IMAGE)) ;;
  sh (echo "Starting Docker container...") ;;
  sh (call (DockerRun "ecommerce-app" "80:80" "unless-stopped" IMAGE)) ;;
  sh (echo "Pulling Docker image from ECR...") ;;
  sh (call (DockerPull IMAGE)) ;;
  sh (echo "Starting Docker container...") ;;
  sh (call (DockerRun "ecommerce-app" "80:80" "unless-stopped" IMAGE)) ;;
  sh (echo "Waiting for container to start...") ;;
  sh (call (Sleep 10)) ;;
  if_ (pipe (call DockerPs) (grep_q ["ecommerce-app"]))
    (sh (echo "✅ Container started successfully"))
    (sh (echo "❌ Container failed to start") ;;
     sh (call (DockerLogs "ecommerce-app")) ;;
     exit 1) ;;
  sh (echo "Application start phase completed successfully").

(** [wc -l] at the end of a pipeline prints the count in decimal. *)
Definition wc_l_reply (input : string) : Reply := ok (show_nat (wc_l input) ++ nl).

(** [[ "$v" -eq n ]] on the decimal numeral that [wc -l] printed. *)
Definition int_eq (v : string) (n : nat) : bool := String.eqb v (show_nat n).

(** src/deployment/validate_service.sh, lines 1-82.  The script runs under
    [set -e]; each of its commented sections is one definition. *)

(* Check if Docker container is running *)
Definition check_container : Sh W unit :=
  let sh := run true in
  sh (echo "Checking Docker container status...") ;;
  if_ (pipe (call DockerPs) (grep_q ["ecommerce-app"]))
    (sh (echo "✅ Docker container is running"))
    (sh (echo "❌ Docker container is not running") ;;
     sh (pipe (call DockerPsAll) (grep false ["ecommerce-app"])
         <||> echo "Container not found") ;;
     exit 1).

(* Check container health *)
Definition check_health : Sh W unit :=
  let sh := run true in
  sh (echo "Checking container health...") ;;
  CONTAINER_STATUS <- assign true (call (DockerInspectStatus "ecommerce-app")) ;;
  if_ (test (String.eqb CONTAINER_STATUS "running"))
    (sh (echo ("✅ Container status: " ++ CONTAINER_STATUS)))
    (sh (echo ("❌ Container status: " ++ CONTAINER_STATUS)) ;;
     sh (call (DockerLogs "ecommerce-app")) ;;
     exit 1).

(* Test HTTP response *)
Definition check_http : Sh W unit :=
  let sh := run true in
  sh (echo "Testing HTTP response...") ;;
  HTTP_CODE <- assign true (call (CurlHttpCode "http://localhost/") <||> echo "000") ;;
  if_ (test (String.eqb HTTP_CODE "200"))
    (sh (echo ("✅ HTTP response: " ++ HTTP_CODE)))
    (sh (echo ("❌ HTTP response: " ++ HTTP_CODE)) ;;
     sh (call (DockerLogs "ecommerce-app")) ;;
     exit 1).

Definition markers : list string := ["ecommerce"; "shop"; "product"].

(* Test application content *)
Definition check_content : Sh W unit :=
  let sh := run true in
  sh (echo "Testing application content...") ;;
  RESPONSE <- assign true
    (pipe (pipe (call (CurlGet "http://localhost/")) (grep true markers)) (head_n 1)) ;;
  if_ (test (negb (String.eqb RESPONSE EmptyString)))
    (sh (echo "✅ Application content validated"))
    (sh (echo "❌ Application content validation failed") ;;
     sh (pipe (call (CurlGet "http://localhost/")) (head_n 10)) ;;
     exit 1).

(** The body passes the content test when one of its lines holds a marker. *)
Definition has_marker (body : string) : bool :=
  existsb (line_matches true markers) (lines body).

Definition error_words : list string := ["error"; "fail"; "exception"].

(* Check Docker logs for errors *)
Definition check_logs : Sh W unit :=
  let sh := run true in
  sh (echo "Checking Docker logs for errors...") ;;
  ERROR_COUNT <- assign true
    (pipe (pipe (call (DockerLogs "ecommerce-app")) (grep true error_words)) wc_l_reply) ;;
  if_ (test (int_eq ERROR_COUNT 0))
    (sh (echo "✅ No errors found in container logs"))
    (sh (echo ("⚠️  Found " ++ ERROR_COUNT ++ " potential errors in logs")) ;;
     sh (pipe (pipe (call (DockerLogs "ecommerce-app")) (grep true error_words))
              (tail_n 5))).

(* Performance check *)
Definition check_performance : Sh W unit :=
  let sh := run true in
  sh (echo "Running performance check...") ;;
  RESPONSE_TIME <- assign true (call (CurlTimeTotal "http://localhost/")) ;;
  sh (echo ("Response time: " ++ RESPONSE_TIME ++ "s")).

(* Final validation *)
Definition final_validation : Sh W unit :=
  let sh := run true in
  sh (echo "Running final validation...") ;;
  if_ (to_dev_null (call (CurlFail "http://localhost/")))
    (sh (echo "✅ Final validation passed") ;;
     sh (echo "🎉 Application deployment validated successfully!"))
    (sh (echo "❌ Final validation failed") ;;
     exit 1).

Definition validate_service : Sh W unit :=
  let sh := run true in                                      (* set -e *)
  sh (echo "Starting validate_service phase...") ;;
  sh (echo "Waiting for application to be ready...") ;;
  sh (call (Sleep 15)) ;;
  check_container ;;
  check_health ;;
  check_http ;;
  check_content ;;
  check_logs ;;
  check_performance ;;
  final_validation ;;
  sh (echo "Validate service phase completed successfully").

End Scripts.

(** ** The phases of a deployment attempt *)

(** The hooks of the deployment agent.  ApplicationStop is the spec's
    Stopping and ValidateService its Validating; the ApplicationStart hook
    does the work of two phases of the spec, Installing (login and pull) and
    then Starting (launch and wait). *)
Inductive Hook : Type :=
| BeforeInstall
| ApplicationStop
| ApplicationStart
| ValidateService.

(** How an attempt ends. *)
Inductive Outcome : Type :=
| Succeeded
| Failed (at_hook : Hook)
| RolledBack.

(** ** Reading a trace *)

Definition is_stop (e : Event) : bool :=
  match e with Called (DockerStop _) _ => true | _ => false end.

Definition is_rm (e : Event) : bool :=
  match e with Called (DockerRm _) _ => true | _ => false end.

Definition is_pull (e : Event) : bool :=
  match e with Called (DockerPull _) _ => true | _ => false end.

Definition is_run (e : Event) : bool :=
  match e with Called (DockerRun _ _ _ _) _ => true | _ => false end.

Definition is_sleep (e : Event) : bool :=
  match e with Called (Sleep _) _ => true | _ => false end.

Definition is_ps (e : Event) : bool :=
  match e with Called DockerPs _ => true | _ => false end.

Definition is_describe (e : Event) : bool :=
  match e with Called (AwsEcrDescribeRepositories _ _) _ => true | _ => false end.

Definition is_logs_call (e : Event) : bool :=
  match e with Called (DockerLogs _) _ => true | _ => false end.

Definition is_inspect (e : Event) : bool :=
  match e with Called (DockerInspectStatus _) _ => true | _ => false end.

Definition is_http_code (e : Event) : bool :=
  match e with Called (CurlHttpCode _) _ => true | _ => false end.

Definition is_get (e : Event) : bool :=
  match e with Called (CurlGet _) _ => true | _ => false end.

Definition count (p : Event -> bool) (tr : list Event) : nat :=
  List.length (filter p tr).

(** The external commands of a trace, without their replies and without the
    printed text. *)
Fixpoint commands (tr : list Event) : list Cmd :=
  match tr with
  | [] => []
  | Called c _ :: tr' => c :: commands tr'
  | Print _ :: tr' => commands tr'
  end.

(** The replies a trace holds for the commands selected by [p], in order. *)
Fixpoint replies (p : Event -> bool) (tr : list Event) : list Reply :=
  match tr with
  | [] => []
  | Called c r :: tr' => if p (Called c r) then r :: replies p tr' else replies p tr'
  | Print _ :: tr' => replies p tr'
  end.

(** The commands that change what runs on the host. *)
Definition is_lifecycle (c : Cmd) : bool :=
  match c with
  | DockerStop _ | DockerRm _ | DockerPull _ | DockerRun _ _ _ _ => true
  | _ => false
  end.

(** The lifecycle commands of a trace, in order. *)
Definition lifecycle (tr : list Event) : list Cmd := filter is_lifecycle (commands tr).

Definition is_start_hook (e : Hook * nat) : bool :=
  match fst e with ApplicationStart => true | _ => false end.

(** How often an attempt entered the ApplicationStart hook; a rollback
    re-entry would make it two. *)
Definition start_entries (l : list (Hook * nat)) : nat :=
  List.length (filter is_start_hook l).

(** ** A deployment attempt *)

Section Attempt.

Variable W : Type.
Variable exec : Cmd -> W -> Reply * W.

Record Attempt : Type := mkAttempt {
  log : list (Hook * nat);      (* the hooks run, each with its exit status *)
  events : list Event;          (* everything the hooks did, in order *)
  host : W;
  outcome : Outcome
}.

(** Modelled from the spec: the deployment agent, which is not part of the
    sources, on one pass through its phases (the rows of the transition
    table from BeforeInstall to Validating).  The phases run in their one
    fixed order; a phase that succeeds hands the host over to the next one,
    and the first one that fails ends the pass.  A phase has failed when its
    script leaves with a nonzero exit status; the retries and the waiting
    inside a phase are its script's. *)
Fixpoint run_phases (hs : list (Hook * Sh W unit)) (w : W) : Attempt :=
  match hs with
  | [] => mkAttempt [] [] w Succeeded
  | (h, script) :: rest =>
      let r := script w in
      match exit_status (result r) with
      | 0 => let a := run_phases rest (final r) in
             mkAttempt ((h, 0) :: log a) (trace r ++ events a) (host a) (outcome a)
      | S n => mkAttempt [(h, S n)] (trace r) (final r) (Failed h)
      end
  end.

(** Modelled from the spec: appspec.yml, which README.md lists but which is
    not among the sources; the hook order is the one of the spec's
    transition table (and of the appspec sketch in interview.md).  The
    ApplicationStart script is a parameter because the repository holds
    two of them. *)
Definition appspec (start : Sh W unit) : list (Hook * Sh W unit) :=
  [ (BeforeInstall, before_install exec);
    (ApplicationStop, application_stop exec);
    (ApplicationStart, start);
    (ValidateService, validate_service exec) ].

(** Modelled from the spec: which failures take the rollback path.  The
    table sends a failure of Starting and one of Validating there, and a
    failure of an earlier phase, Installing included, to Failed.  The
    ApplicationStart hook has failed in Starting when it had gone as far as
    [docker run], in Installing before that ([before_install] and
    [application_stop] run no [docker run], so a launch in the pass is one
    of the ApplicationStart hook). *)
Definition takes_rollback (a : Attempt) : bool :=
  match outcome a with
  | Failed ValidateService => true
  | Failed ApplicationStart => negb (count is_run (events a) =? 0)
  | _ => false
  end.

(** Modelled from the spec: the rollback path.  Stopping, Installing,
    Starting and Validating are entered again, with the previous artifact
    reference: [previous] is the ApplicationStart script of the revision
    deployed before, which pulls and launches that artifact.  When this
    second pass succeeds the attempt ends RolledBack; when one of its phases
    fails the attempt ends Failed, and nothing more is tried. *)
Definition rollback (previous : Sh W unit) (a : Attempt) : Attempt :=
  let b := run_phases [ (ApplicationStop, application_stop exec);
                        (ApplicationStart, previous);
                        (ValidateService, validate_service exec) ] (host a) in
  mkAttempt (log a ++ log b) (events a ++ events b) (host b)
            (match outcome b with Succeeded => RolledBack | o => o end).

(** Modelled from the spec: the deployment agent.  [recorded] is the
    rollback target the agent has recorded when the attempt begins (the rows
    Idle and BeforeInstall of the table): the previous artifact reference,
    when one is known.  The hook scripts record none themselves. *)
Definition attempt (recorded : option (Sh W unit)) (start : Sh W unit) (w : W) : Attempt :=
  let a := run_phases (appspec start) w in
  match recorded with
  | Some previous => if takes_rollback a then rollback previous a else a
  | None => a
  end.

(** An attempt for which no rollback target is recorded. *)
Definition deploy (start : Sh W unit) (w : W) : Attempt :=
  attempt None start w.

End Attempt.

(** ** A reference machine

    One concrete machine, used to run the scripts on explicit hosts.  It
    follows the documented behaviour of the docker command line: container
    names are unique, [docker rm] refuses a running container, [docker run]
    takes the image from the local cache before asking the registry, and
    [docker ps] lists only running containers. *)

Module Host.

Record Container : Type := mkContainer {
  c_name : string;
  c_image : string;
  c_running : bool
}.

Record t : Type := mk {
  repositories : list string;   (* ECR repositories that exist *)
  registry : list string;       (* image references the registry can serve *)
  pulls_left : nat;             (* pulls the registry still serves (rate limit) *)
  images : list string;         (* local image cache *)
  containers : list Container;
  crashing : list string;       (* images whose container exits soon after its start *)
  stubborn : list string;       (* names of containers that docker stop cannot stop *)
  http_code : string;           (* what the service answers while its container runs *)
  body : string;
  latency_us : N;               (* time_total of a request, in microseconds *)
  app_log : string
}.

Definition mem (x : string) (l : list string) : bool := existsb (String.eqb x) l.

Definition find (n : string) (h : t) : option Container :=
  List.find (fun c => String.eqb (c_name c) n) (containers h).

Definition has_container (n : string) (h : t) : bool :=
  match find n h with Some _ => true | None => false end.

Definition running (n : string) (h : t) : bool :=
  match find n h with Some c => c_running c | None => false end.

Definition with_containers (cs : list Container) (h : t) : t :=
  mk (repositories h) (registry h) (pulls_left h) (images h) cs (crashing h) (stubborn h)
     (http_code h) (body h) (latency_us h) (app_log h).

Definition with_images (is_ : list string) (h : t) : t :=
  mk (repositories h) (registry h) (pulls_left h) is_ (containers h) (crashing h) (stubborn h)
     (http_code h) (body h) (latency_us h) (app_log h).

(** One pull served: the image is in the cache, the budget is one less. *)
Definition pulled (i : string) (h : t) : t :=
  mk (repositories h) (registry h) (pulls_left h - 1) (i :: images h) (containers h)
     (crashing h) (stubborn h) (http_code h) (body h) (latency_us h) (app_log h).

Definition halt (n : string) (c : Container) : Container :=
  if String.eqb (c_name c) n then mkContainer (c_name c) (c_image c) false else c.

Definition crash (bad : list string) (c : Container) : Container :=
  if mem (c_image c) bad then mkContainer (c_name c) (c_image c) false else c.

Definition row (c : Container) : string :=
  (c_image c ++ "   " ++ (if c_running c then "Up" else "Exited") ++ "   " ++ c_name c)%string.

Definition table (cs : list Container) : string :=
  unlines ("IMAGE   STATUS   NAMES"%string :: map row cs).

Definition pad6 (s : string) : string :=
  (String.concat "" (repeat "0"%string (6 - String.length s)) ++ s)%string.

Definition show_N (n : N) : string := NilEmpty.string_of_uint (N.to_uint n).

(** curl prints time_total in seconds with six decimals. *)
Definition show_time (us : N) : string :=
  (show_N (us / 1000000) ++ "." ++ pad6 (show_N (us mod 1000000)))%string.

Definition fail (n : nat) : Reply := mkReply n EmptyString.

Definition exec (c : Cmd) (h : t) : Reply * t :=
  match c with
  | DockerStop n =>
      if has_container n h && negb (mem n (stubborn h))
      then (ok (n ++ nl), with_containers (map (halt n) (containers h)) h)
      else (fail 1, h)
  | DockerRm n =>
      if has_container n h && negb (running n h)
      then (ok (n ++ nl),
            with_containers (filter (fun c => negb (String.eqb (c_name c) n)) (containers h)) h)
      else (fail 1, h)
  | DockerPs => (ok (table (filter c_running (containers h))), h)
  | DockerPsAll => (ok (table (containers h)), h)
  | DockerInspectStatus n =>
      match find n h with
      | Some c => (ok ((if c_running c then "running" else "exited") ++ nl), h)
      | None => (fail 1, h)
      end
  | DockerLogs n =>
      if has_container n h then (ok (app_log h), h) else (fail 1, h)
  | DockerPull i =>
      if mem i (registry h) && (0 <? pulls_left h)
      then (ok ("Status: Downloaded " ++ i ++ nl), pulled i h)
      else (fail 1, h)
  | DockerRun n _ _ i =>
      if has_container n h then (fail 125, h)
      else if mem i (images h) || mem i (registry h)
      then (ok ("3f5c9d1a2b7e" ++ nl),
            with_containers (mkContainer n i true :: containers h)
              (with_images (i :: images h) h))
      else (fail 125, h)
  | AwsEcrDescribeRepositories repo _ =>
      if mem repo (repositories h) then (ok ("{}" ++ nl), h) else (fail 254, h)
  | AwsStsAccount _ => (ok ("142595748980" ++ nl), h)
  | AwsEcrGetLoginPassword _ => (ok ("secret" ++ nl), h)
  | DockerLogin _ _ _ => (ok ("Login Succeeded" ++ nl), h)
  | CurlMetadata _ => (ok "us-east-1", h)
  | CurlHttpCode _ =>
      if running "ecommerce-app" h then (ok (http_code h), h) else (mkReply 7 "000", h)
  | CurlGet _ =>
      if running "ecommerce-app" h then (ok (body h), h) else (fail 7, h)
  | CurlTimeTotal _ =>
      if running "ecommerce-app" h then (ok (show_time (latency_us h)), h)
      else (mkReply 7 (show_time 0), h)
  | CurlFail _ =>
      if running "ecommerce-app" h
      then (if String.eqb (http_code h) "200" then (ok (body h), h) else (fail 22, h))
      else (fail 7, h)
  | Sleep _ => (ok EmptyString, with_containers (map (crash (crashing h)) (containers h)) h)
  | CommandV _ | YumUpdate | YumInstall _ | SystemctlStart _ | SystemctlEnable _
  | Usermod _ _ | CurlDownload _ _ | Unzip _ | AwsInstall => (ok EmptyString, h)
  end.

Definition ecr : string := "142595748980.dkr.ecr.us-east-1.amazonaws.com".

Definition image : string := "142595748980.dkr.ecr.us-east-1.amazonaws.com/ecommerce-app:latest".

Definition home_page : string :=
  ("<title>CloudMart - Docker E-Commerce Platform v2.0</title>" ++ nl ++
   "<h2>Featured Products</h2>" ++ nl)%string.

(** A fresh host: nothing deployed yet, the image is in the registry and
    the service it holds answers well. *)
Definition fresh : t :=
  mk ["ecommerce-app"] [image] 100 [] [] [] [] "200" home_page 3421 EmptyString.

End Host.

(** ** Hosts used as concrete inputs *)

Module Hosts.

Import Host.

Definition previous_image : string :=
  "142595748980.dkr.ecr.us-east-1.amazonaws.com/ecommerce-app:v1".

(** The service is up: the container of a finished deployment runs. *)
Definition serving : t :=
  mk ["ecommerce-app"] [image] 100 [image] [mkContainer "ecommerce-app" image true]
     [] [] "200" home_page 3421 EmptyString.

(** The running container cannot be stopped. *)
Definition stuck : t :=
  mk ["ecommerce-app"] [image] 100 [image] [mkContainer "ecommerce-app" image true]
     [] ["ecommerce-app"] "200" home_page 3421 EmptyString.

(** The registry does not know the image reference (the repository does
    not exist either); an image of that name is left in the local cache. *)
Definition unknown_reference : t :=
  mk [] [] 100 [image] [] [] [] "200" home_page 3421 EmptyString.

(** A previous artifact (v1) is running; the container of the new image
    exits soon after its start. *)
Definition bad_release : t :=
  mk ["ecommerce-app"] [image; previous_image] 100 [previous_image]
     [mkContainer "ecommerce-app" previous_image true]
     [image] [] "200" home_page 3421 EmptyString.

(** Nothing deployed yet, and the registry serves one more pull only. *)
Definition one_pull_left : t :=
  mk ["ecommerce-app"] [image] 1 [] [] [] [] "200" home_page 3421 EmptyString.

(** The service answers 200 with an empty body. *)
Definition empty_body : t :=
  mk ["ecommerce-app"] [image] 100 [image] [mkContainer "ecommerce-app" image true]
     [] [] "200" EmptyString 3421 EmptyString.

(** The service answers well, after [us] microseconds. *)
Definition slow (us : N) : t :=
  mk ["ecommerce-app"] [image] 100 [image] [mkContainer "ecommerce-app" image true]
     [] [] "200" home_page us EmptyString.

End Hosts.

(** ** Observations and variations of a machine *)

Section Observations.

Variable W : Type.
Variable exec : Cmd -> W -> Reply * W.

(** Whether a container of that name exists is what [docker inspect] tells:
    it fails when there is none. *)
Definition container_exists (n : string) (w : W) : bool :=
  status (fst (exec (DockerInspectStatus n) w)) =? 0.

(** The machine [exec] with the replies to the commands selected by [p]
    replaced by those of [f]; the world moves on as before. *)
Definition override (p : Cmd -> bool) (f : Cmd -> W -> Reply) : Cmd -> W -> Reply * W :=
  fun c w => if p c then (f c w, snd (exec c w)) else exec c w.

(** The machine [exec] with commands selected by [p] that only read: they
    answer as [f] says and leave the world as it is. *)
Definition reading (p : Cmd -> bool) (f : Cmd -> W -> Reply) : Cmd -> W -> Reply * W :=
  fun c w => if p c then (f c w, w) else exec c w.

Definition is_logs (c : Cmd) : bool :=
  match c with DockerLogs _ => true | _ => false end.

Definition is_time_total (c : Cmd) : bool :=
  match c with CurlTimeTotal _ => true | _ => false end.

(** [exec] with a container log given by [f]: [docker logs] answers [f]
    (a status and the log contents) and changes nothing. *)
Definition with_logs (f : Cmd -> W -> Reply) : Cmd -> W -> Reply * W :=
  reading is_logs f.

(** [exec] with other measured times: the measuring command keeps its exit
    status and prints [t] instead. *)
Definition with_time_total (t : W -> string) : Cmd -> W -> Reply * W :=
  override is_time_total (fun c w => mkReply (status (fst (exec c w))) (t w)).

(** [wp m w Q]: the run of [m] from [w] ends in a result, a world and a
    trace that satisfy [Q]. *)
Definition wp {A : Type} (m : Sh W A) (w : W)
           (Q : Res A -> W -> list Event -> Prop) : Prop :=
  Q (result (m w)) (final (m w)) (trace (m w)).

(** Two runs end alike up to [E] on exit codes: both run to their end, in
    the same world, or both leave with exit codes related by [E]. *)
Definition same_outcome (E : nat -> nat -> Prop) (r1 r2 : Run W unit) : Prop :=
  match result r1, result r2 with
  | Ret _, Ret _ => final r1 = final r2
  | Exit n1, Exit n2 => E n1 n2
  | _, _ => False
  end.

Definition agree (E : nat -> nat -> Prop) (m1 m2 : Sh W unit) : Prop :=
  forall w, same_outcome E (m1 w) (m2 w).

(** Exit codes that mean the same to the deployment agent. *)
Definition same_verdict (n1 n2 : nat) : Prop := n1 = 0 <-> n2 = 0.

End Observations.

Arguments wp {W A} m w Q.
Arguments same_outcome {W} E r1 r2.
Arguments agree {W} E m1 m2.

(** ** More readers of a trace *)

(** The external commands of a run with their replies, in order. *)
Fixpoint calls (tr : list Event) : list (Cmd * Reply) :=
  match tr with
  | [] => []
  | Called c r :: tr' => (c, r) :: calls tr'
  | Print _ :: tr' => calls tr'
  end.

Definition last_call (tr : list Event) : option (Cmd * Reply) := hd_error (rev (calls tr)).

(** What a run wrote on its standard output, statement by statement. *)
Fixpoint prints (tr : list Event) : list string :=
  match tr with
  | [] => []
  | Called _ _ :: tr' => prints tr'
  | Print s :: tr' => s :: prints tr'
  end.

Definition is_command_v (e : Event) : bool :=
  match e with Called (CommandV _) _ => true | _ => false end.


(** The commands of [application_start_variant] whose exit status the script
    does not look at: the metadata lookup has a fallback, the other two are
    the head of a pipeline. *)
Definition unchecked (c : Cmd) : bool :=
  match c with
  | CurlMetadata _ | AwsEcrGetLoginPassword _ | DockerPs => true
  | _ => false
  end.

(** The commands of [validate_service] of which only the output counts:
    each is the head of a pipeline. *)
Definition output_only (c : Cmd) : bool :=
  match c with DockerPs | CurlGet _ | DockerLogs _ => true | _ => false end.

(** The requests to the service. *)
Definition is_http (c : Cmd) : bool :=
  match c with
  | CurlHttpCode _ | CurlGet _ | CurlTimeTotal _ | CurlFail _ => true
  | _ => false
  end.

(** ** Two more machines *)

Module Machines.


(** A machine without state on which the service is up and answers well. *)
Definition steady (c : Cmd) (w : unit) : Reply * unit :=
  (match c with
   | DockerPs => ok ("ecommerce-app" ++ nl)
   | DockerInspectStatus _ => ok ("running" ++ nl)
   | CurlHttpCode _ => ok "200"
   | CurlGet _ => ok ("<h1>shop</h1>" ++ nl)
   | _ => ok EmptyString
   end, w).

End Machines.

(** ** The shopping cart of the deployed page

    src/src/ecommerce-app/script.js keeps the cart in a global array, shows
    it in the page and saves it in the browser's local storage.  The page
    is a record of what the script reads and writes:

      - [products] and [cart] are the two globals;
      - [storage] is the entry cloudmart-cart of localStorage, kept as the
        cart it encodes ([JSON.parse] gives back what [JSON.stringify] was
        given, for carts of such items);
      - [shown] is the cart as [updateCartDisplay] rendered it last (the
        count, the rows and the total it writes into the page are computed
        from the cart alone);
      - [notifications] are the messages shown so far, with their type;
      - [cart_open] is the class open of the cart sidebar.

    Identifiers and quantities are integers.  JavaScript holds them as
    floating-point numbers and its sums are those of the integers as long as
    the numbers are safe integers, of magnitude below 2^53 (see [safe]);
    beyond, a sum is rounded.  The sums below are exact: a theorem that
    speaks of the value of a sum assumes the quantities it adds to be safe.
    Prices are floating-point numbers, as [toFixed] wants them: they stay
    uninterpreted, and so does the text [total.toFixed(2)] of the total. *)

Module Shop.

Local Open Scope Z_scope.

Section Page.

Variable Price : Type.

Record Product : Type := mkProduct {
  id : Z;
  name : string;
  category : string;
  price : Price;
  description : string;
  icon : string
}.

(** An item of the cart: [{...product, quantity}]. *)
Record Item : Type := mkItem {
  product : Product;
  quantity : Z
}.

Record Page : Type := mkPage {
  products : list Product;
  cart : list Item;
  storage : option (list Item);
  shown : option (list Item);
  notifications : list (string * string);
  cart_open : bool
}.

(** The value of a price literal of the source. *)
Variable literal : string -> Price.

(* lines 47-114 *)
Definition getDefaultProducts : list Product :=
  [ mkProduct 1 "AWS Cloud Practitioner Guide" "books" (literal "29.99")
      "Complete guide to AWS Cloud Practitioner certification" "fas fa-book";
    mkProduct 2 "DevOps Toolkit" "electronics" (literal "199.99")
      "Essential tools for modern DevOps practices" "fas fa-tools";
    mkProduct 3 "Cloud Engineer T-Shirt" "clothing" (literal "24.99")
      "Comfortable t-shirt for cloud engineers" "fas fa-tshirt";
    mkProduct 4 "Kubernetes Handbook" "books" (literal "34.99")
      "Master container orchestration with Kubernetes" "fas fa-book-open";
    mkProduct 5 "CI/CD Pipeline Laptop" "electronics" (literal "899.99")
      "High-performance laptop for development" "fas fa-laptop";
    mkProduct 6 "Docker Hoodie" "clothing" (literal "39.99")
      "Warm hoodie with Docker logo" "fas fa-user-tie";
    mkProduct 7 "Terraform Guide" "books" (literal "32.99")
      "Infrastructure as Code with Terraform" "fas fa-code";
    mkProduct 8 "Monitoring Dashboard" "electronics" (literal "299.99")
      "Real-time monitoring solution" "fas fa-chart-line" ].

(** The page as the script finds it: lines 2-3, and whatever the browser
    kept under cloudmart-cart. *)
Definition initial (saved : option (list Item)) : Page :=
  mkPage [] [] saved None [] false.

(** lines 27-44: the products of products.json when the request succeeds,
    the default ones otherwise. *)
Definition loadProducts (response : option (list Product)) (s : Page) : Page :=
  mkPage (match response with Some ps => ps | None => getDefaultProducts end)
         (cart s) (storage s) (shown s) (notifications s) (cart_open s).

(** The assignment [cart = c]. *)
Definition with_cart (c : list Item) (s : Page) : Page :=
  mkPage (products s) c (storage s) (shown s) (notifications s) (cart_open s).

(** [item.id === productId] *)
Definition has_id (productId : Z) (item : Item) : bool := id (product item) =? productId.

(** [products.find(p => p.id === productId)] *)
Definition find_product (productId : Z) (s : Page) : option Product :=
  find (fun p => id p =? productId) (products s).

(** [cart.find(item => item.id === productId)] *)
Definition find_item (productId : Z) (c : list Item) : option Item :=
  find (has_id productId) c.

(** [item.quantity += change] on the item that [cart.find] gave: the first
    one with that id, changed where it stands in the array.  The sum is the
    one of JavaScript for safe integers with a safe sum. *)
Fixpoint add_quantity (productId change : Z) (c : list Item) : list Item :=
  match c with
  | [] => []
  | item :: rest =>
      if has_id productId item
      then mkItem (product item) (quantity item + change) :: rest
      else item :: add_quantity productId change rest
  end.

(* lines 246-281 *)
Definition updateCartDisplay (s : Page) : Page :=
  mkPage (products s) (cart s) (storage s) (Some (cart s)) (notifications s) (cart_open s).

(* lines 312-314 *)
Definition saveCartToStorage (s : Page) : Page :=
  mkPage (products s) (cart s) (Some (cart s)) (shown s) (notifications s) (cart_open s).

(* lines 376-425 *)
Definition showNotification (message type : string) (s : Page) : Page :=
  mkPage (products s) (cart s) (storage s) (shown s)
         (notifications s ++ [(message, type)]) (cart_open s).

(* lines 284-287 *)
Definition toggleCart (s : Page) : Page :=
  mkPage (products s) (cart s) (storage s) (shown s) (notifications s)
         (negb (cart_open s)).

(* lines 203-221 *)
Definition addToCart (productId : Z) (s : Page) : Page :=
  match find_product productId s with
  | None => s
  | Some p =>
      let s1 :=
        match find_item productId (cart s) with
        | Some _ => with_cart (add_quantity productId 1 (cart s)) s
        | None => with_cart (cart s ++ [mkItem p 1]) s
        end in
      showNotification (name p ++ " added to cart!") "success"
        (saveCartToStorage (updateCartDisplay s1))
  end.

(* lines 224-228 *)
Definition removeFromCart (productId : Z) (s : Page) : Page :=
  saveCartToStorage (updateCartDisplay
    (with_cart (filter (fun item => negb (has_id productId item)) (cart s)) s)).

(* lines 231-243 *)
Definition updateCartQuantity (productId change : Z) (s : Page) : Page :=
  match find_item productId (cart s) with
  | None => s
  | Some item =>
      let s1 := with_cart (add_quantity productId change (cart s)) s in
      if quantity item + change <=? 0 then removeFromCart productId s1
      else saveCartToStorage (updateCartDisplay s1)
  end.

(** [total.toFixed(2)] for the total of a cart. *)
Variable total_text : list Item -> string.

(* lines 290-304 *)
Definition checkout (s : Page) : Page :=
  match cart s with
  | [] => showNotification "Your cart is empty!" "warning" s
  | _ :: _ =>
      let s1 := showNotification ("Checkout successful! Total: $" ++ total_text (cart s))
                                 "success" s in
      toggleCart (saveCartToStorage (updateCartDisplay (with_cart [] s1)))
  end.

(* lines 317-323 *)
Definition loadCartFromStorage (s : Page) : Page :=
  match storage s with
  | Some c => updateCartDisplay (with_cart c s)
  | None => s
  end.

(** What changes the cart: the buttons of the page call the first three
    with the id of their product (lines 132 and 268-271), another one calls
    [checkout], and the last runs when the page has loaded (line 23). *)
Inductive Action : Type :=
| AddToCart (productId : Z)
| RemoveFromCart (productId : Z)
| UpdateCartQuantity (productId change : Z)
| Checkout
| LoadCartFromStorage.

Definition step (a : Action) (s : Page) : Page :=
  match a with
  | AddToCart productId => addToCart productId s
  | RemoveFromCart productId => removeFromCart productId s
  | UpdateCartQuantity productId change => updateCartQuantity productId change s
  | Checkout => checkout s
  | LoadCartFromStorage => loadCartFromStorage s
  end.

Definition run_actions (l : list Action) (s : Page) : Page :=
  fold_left (fun s a => step a s) l s.

(** *** What is said about a cart *)

(** The integers JavaScript counts exactly ([Number.isSafeInteger]): those
    of magnitude below 2^53. *)
Definition safe (n : Z) : Prop :=
  - 9007199254740992 < n < 9007199254740992.

(** The number of units in a list of items. *)
Fixpoint units (c : list Item) : Z :=
  match c with
  | [] => 0
  | item :: rest => quantity item + units rest
  end.

(** The units of a product in the cart, over all items with its id. *)
Definition quantity_of (productId : Z) (c : list Item) : Z :=
  units (filter (has_id productId) c).

(** The product is one of [products]. *)
Definition known (productId : Z) (s : Page) : bool :=
  existsb (fun p => id p =? productId) (products s).

(** One item for each product, each with a positive quantity. *)
Definition well_formed (c : list Item) : Prop :=
  NoDup (map (fun item => id (product item)) c) /\
  Forall (fun item => 0 < quantity item) c.

Definition page_ok (s : Page) : Prop :=
  well_formed (cart s) /\
  match storage s with Some c => well_formed c | None => True end.

(** The page shows the cart and the store holds it. *)
Definition synced (s : Page) : Prop :=
  storage s = Some (cart s) /\ shown s = Some (cart s).

End Page.

End Shop.

(** ** Pages used as concrete inputs *)

Module Pages.

Import Shop.

Local Open Scope Z_scope.

(** Prices as the literals of the source; no text for totals. *)
Definition no_total : list (Item string) -> string := fun _ => EmptyString.

(** The page after a visit that found no products.json and no stored cart. *)
Definition shop : Page string := loadProducts (fun s => s) None (initial None).

Definition guide : Product string :=
  mkProduct 1 "AWS Cloud Practitioner Guide" "books" "29.99"
    "Complete guide to AWS Cloud Practitioner certification" "fas fa-book".

(** The guide was added twice. *)
Definition two_guides : Page string := addToCart 1 (addToCart 1 shop).

End Pages.

(** ** Reasoning about runs *)

Section Wp.

Variable W : Type.
Variable exec : Cmd -> W -> Reply * W.

Lemma wp_bind {A B : Type} (m : Sh W A) (k : A -> Sh W B) w Q :
  wp m w (fun r w1 t1 =>
    match r with
    | Ret a => wp (k a) w1 (fun r2 w2 t2 => Q r2 w2 (t1 ++ t2))
    | Exit n => Q (Exit n) w1 t1
    end) ->
  wp (bind m k) w Q.
Proof.
  unfold wp, bind. destruct (m w) as [[a | n] w1 t1]; simpl; auto.
  destruct (k a w1) as [r2 w2 t2]; simpl; auto.
Qed.

Lemma wp_ret {A : Type} (a : A) w (Q : Res A -> W -> list Event -> Prop) :
  Q (Ret a) w [] -> wp (ret a) w Q.
Proof. exact (fun H => H). Qed.

Lemma wp_exit {A : Type} n w (Q : Res A -> W -> list Event -> Prop) :
  Q (Exit n) w [] -> wp (exit n) w Q.
Proof. exact (fun H => H). Qed.

Lemma wp_emit evs w (Q : Res unit -> W -> list Event -> Prop) :
  Q (Ret tt) w evs -> wp (emit evs) w Q.
Proof. exact (fun H => H). Qed.

Lemma wp_call c w (Q : Res Reply -> W -> list Event -> Prop) :
  (forall r w', exec c w = (r, w') -> Q (Ret r) w' [Called c r]) ->
  wp (call exec c) w Q.
Proof.
  unfold wp, call. intros H. destruct (exec c w) as [r w'] eqn:E. simpl. auto.
Qed.

Lemma same_outcome_wp (E : nat -> nat -> Prop) (m1 m2 : Sh W unit) w :
  wp m1 w (fun r1 w1 _ => wp m2 w (fun r2 w2 _ =>
    match r1, r2 with
    | Ret _, Ret _ => w1 = w2
    | Exit n1, Exit n2 => E n1 n2
    | _, _ => False
    end)) ->
  same_outcome E (m1 w) (m2 w).
Proof. exact (fun H => H). Qed.

End Wp.

Ltac wp_split_status r :=
  lazymatch goal with
  | H : status r = _ |- _ => rewrite H; cbn [Nat.eqb andb negb orb]
  | _ => let S := fresh "S" in
         destruct (status r) eqn:S; cbn [Nat.eqb andb negb orb]
  end.

Ltac wp_split_bool c :=
  lazymatch goal with
  | H : c = _ |- _ => rewrite H; cbn [Nat.eqb andb negb orb]
  | _ => let B := fresh "B" in
         destruct c eqn:B; cbn [Nat.eqb andb negb orb]
  end.

(** The reply just named may be known already: given by an overriding
    machine, or named before in the run of the other machine. *)
Ltac wp_sync E :=
  unfold with_time_total, with_logs, override, reading in E;
  cbn [is_logs is_time_total] in E;
  lazymatch type of E with
  | (_, _) = (_, _) => injection E as ? ?; subst
  | ?x = (_, _) =>
      first [ match goal with
              | E0 : x = (_, _) |- _ =>
                  rewrite E0 in E; injection E as ? ?; subst
              end
            | rewrite E in *; cbn [fst snd] in *
            | idtac ]
  end.

(** One step of a run: the rule of the construct at the head of the script. *)
Ltac wp_step :=
  cbv beta iota;
  lazymatch goal with
  | |- wp (bind _ _) _ _ => apply wp_bind
  | |- wp (ret _) _ _ => apply wp_ret
  | |- wp (exit _) _ _ => apply wp_exit
  | |- wp (emit _) _ _ => apply wp_emit
  | |- wp skip _ _ => apply wp_ret
  | |- wp (call _ _) _ _ =>
      let r := fresh "r" in let w := fresh "w" in let E := fresh "E" in
      apply wp_call; intros r w E; wp_sync E
  | |- wp (run _ _) _ _ => unfold run
  | |- wp (if_ _ _ _) _ _ => unfold if_
  | |- wp (assign _ _) _ _ => unfold assign
  | |- wp (or_else _ _) _ _ => unfold or_else
  | |- wp (pipe _ _) _ _ => unfold pipe
  | |- wp (pipe_into _ _ _) _ _ => unfold pipe_into
  | |- wp (to_dev_null _) _ _ => unfold to_dev_null
  | |- wp (not_ _) _ _ => unfold not_
  | |- wp (test _) _ _ => unfold test
  | |- wp true_ _ _ => unfold true_
  | |- wp (echo _) _ _ => unfold echo
  | |- wp (print _) _ _ => unfold print
  | |- wp (check_container _) _ _ => unfold check_container; cbv zeta
  | |- wp (check_health _) _ _ => unfold check_health; cbv zeta
  | |- wp (check_http _) _ _ => unfold check_http; cbv zeta
  | |- wp (check_content _) _ _ => unfold check_content; cbv zeta
  | |- wp (check_logs _) _ _ => unfold check_logs; cbv zeta
  | |- wp (check_performance _) _ _ => unfold check_performance; cbv zeta
  | |- wp (final_validation _) _ _ => unfold final_validation; cbv zeta
  | |- wp (if ?b then _ else _) _ _ =>
      cbn [andb negb orb status out ok head_n tail_n wc_l_reply Nat.eqb];
      lazymatch goal with
      | |- wp (if ?b then _ else _) _ _ =>
          lazymatch b with
          | context [Nat.eqb (status ?r) 0] => wp_split_status r
          | context [Nat.eqb (if ?c then _ else _) 0] => wp_split_bool c
          | _ => wp_split_bool b
          end
      | _ => idtac
      end
  end.

Ltac wp_run := repeat wp_step; cbv beta iota.

(** ** Facts about traces *)

Lemma commands_app (t1 t2 : list Event) :
  commands (t1 ++ t2) = commands t1 ++ commands t2.
Proof.
  induction t1 as [| [c r | s] t1 IH]; simpl; congruence.
Qed.

Lemma lifecycle_app (t1 t2 : list Event) :
  lifecycle (t1 ++ t2) = lifecycle t1 ++ lifecycle t2.
Proof.
  unfold lifecycle. rewrite commands_app. apply filter_app.
Qed.

(** Once a run is through, its trace is an explicit list. *)
Ltac trace_simpl :=
  cbn [app commands replies count filter List.length lifecycle is_lifecycle
       is_stop is_rm is_pull is_run is_sleep is_ps is_inspect is_http_code is_get
       is_describe is_logs_call].

(** ** What each script runs *)

Section ScriptRuns.

Variable W : Type.
Variable exec : Cmd -> W -> Reply * W.

(** What [application_stop] does, whatever the runtime answers: one stop,
    one removal, no exit before its last line; the fallback message follows
    a failed stop. *)
Lemma application_stop_run (w : W) :
  result (application_stop exec w) = Ret tt /\
  commands (trace (application_stop exec w)) =
    [DockerStop "ecommerce-app"; DockerRm "ecommerce-app"] /\
  exists r0,
    replies is_stop (trace (application_stop exec w)) = [r0] /\
    (status r0 <> 0 ->
     In (Print (out r0 ++ "Container was not running" ++ nl))
        (trace (application_stop exec w))).
Proof.
  change (wp (application_stop exec) w (fun r _ t =>
    r = Ret tt /\ commands t = [DockerStop "ecommerce-app"; DockerRm "ecommerce-app"] /\
    exists r0, replies is_stop t = [r0] /\
      (status r0 <> 0 -> In (Print (out r0 ++ "Container was not running" ++ nl)) t))).
  unfold application_stop; cbv zeta. wp_run.
  all: split; [reflexivity | split; [reflexivity |]].
  all: eexists; split; [reflexivity |].
  all: intros Hs; first [congruence | cbn [app In]; auto 10].
Qed.

Lemma application_stop_lifecycle (w : W) :
  lifecycle (trace (application_stop exec w)) =
    [DockerStop "ecommerce-app"; DockerRm "ecommerce-app"].
Proof.
  unfold lifecycle. destruct (application_stop_run w) as (_ & H & _). rewrite H. reflexivity.
Qed.

(** [before_install] has no [set -e] and ends with an echo; of the lifecycle
    commands it runs a stop and a removal. *)
Lemma before_install_run (w : W) :
  result (before_install exec w) = Ret tt /\
  lifecycle (trace (before_install exec w)) =
    [DockerStop "ecommerce-app"; DockerRm "ecommerce-app"].
Proof.
  change (wp (before_install exec) w (fun r _ t =>
    r = Ret tt /\ lifecycle t = [DockerStop "ecommerce-app"; DockerRm "ecommerce-app"])).
  unfold before_install; cbv zeta. wp_run.
  all: split; reflexivity.
Qed.

(** [validate_service] only looks: it runs no lifecycle command. *)
Lemma validate_service_lifecycle (w : W) :
  lifecycle (trace (validate_service exec w)) = [].
Proof.
  change (wp (validate_service exec) w (fun _ _ t => lifecycle t = [])).
  unfold validate_service; cbv zeta. wp_run.
  all: reflexivity.
Qed.

(** What [application_start] does, whatever the runtime answers: no reply
    before the final check changes the commands it goes on to run, and the
    final check alone decides how the script ends. *)
Lemma application_start_run (w : W) :
  wp (application_start exec) w (fun r _ t =>
    (exists password,
       commands t =
         [DockerStop "ecommerce-app"; DockerRm "ecommerce-app";
          AwsEcrGetLoginPassword "us-east-1"; DockerLogin "AWS" Host.ecr password;
          DockerPull Host.image;
          DockerRun "ecommerce-app" "80:80" "unless-stopped" Host.image;
          Sleep 10; DockerPs] ++
         match r with Ret _ => [] | Exit _ => [DockerLogs "ecommerce-app"] end) /\
    (r = Ret tt \/ r = Exit 1) /\
    exists p, replies is_ps t = [p] /\
      (r = Exit 1 <-> status (grep_q ["ecommerce-app"] (out p)) <> 0)).
Proof.
  unfold application_start; cbv zeta. wp_run.
  all: split; [eexists; reflexivity | split; [auto |]].
  all: eexists; split; [reflexivity |].
  all: split; intros H; congruence.
Qed.

Lemma application_start_lifecycle (w : W) :
  lifecycle (trace (application_start exec w)) =
    [DockerStop "ecommerce-app"; DockerRm "ecommerce-app"; DockerPull Host.image;
     DockerRun "ecommerce-app" "80:80" "unless-stopped" Host.image].
Proof.
  destruct (application_start_run w) as ((pw & H) & _).
  unfold lifecycle. rewrite H.
  destruct (result (application_start exec w)); reflexivity.
Qed.

End ScriptRuns.

(** ** Attempts *)

Section AttemptFacts.

Variable W : Type.
Variable exec : Cmd -> W -> Reply * W.

(** An attempt always gets past BeforeInstall and ApplicationStop; what
    follows is decided by the exit status of ApplicationStart and then of
    ValidateService. *)
Lemma pass_unfold (start : Sh W unit) (w : W) :
  let r1 := before_install exec w in
  let r2 := application_stop exec (final r1) in
  let r3 := start (final r2) in
  let r4 := validate_service exec (final r3) in
  run_phases (appspec exec start) w =
    match exit_status (result r3) with
    | 0 =>
        match exit_status (result r4) with
        | 0 => mkAttempt
                 [(BeforeInstall, 0); (ApplicationStop, 0); (ApplicationStart, 0);
                  (ValidateService, 0)]
                 (trace r1 ++ trace r2 ++ trace r3 ++ trace r4 ++ [])
                 (final r4) Succeeded
        | S v => mkAttempt
                 [(BeforeInstall, 0); (ApplicationStop, 0); (ApplicationStart, 0);
                  (ValidateService, S v)]
                 (trace r1 ++ trace r2 ++ trace r3 ++ trace r4)
                 (final r4) (Failed ValidateService)
        end
    | S s => mkAttempt
               [(BeforeInstall, 0); (ApplicationStop, 0); (ApplicationStart, S s)]
               (trace r1 ++ trace r2 ++ trace r3) (final r3) (Failed ApplicationStart)
    end.
Proof.
  intros r1 r2 r3 r4. unfold appspec. cbn [run_phases].
  destruct (before_install_run exec w) as [H1 _]. fold r1 in H1. fold r1. rewrite H1.
  cbn [exit_status].
  destruct (application_stop_run exec (final r1)) as (H2 & _). fold r2 in H2. fold r2.
  rewrite H2. cbn [exit_status]. fold r3.
  destruct (exit_status (result r3)) as [| s]; cbn [log events host outcome].
  - fold r4. destruct (exit_status (result r4)) as [| v]; reflexivity.
  - reflexivity.
Qed.

Lemma deploy_unfold (start : Sh W unit) (w : W) :
  let r1 := before_install exec w in
  let r2 := application_stop exec (final r1) in
  let r3 := start (final r2) in
  let r4 := validate_service exec (final r3) in
  deploy exec start w =
    match exit_status (result r3) with
    | 0 =>
        match exit_status (result r4) with
        | 0 => mkAttempt
                 [(BeforeInstall, 0); (ApplicationStop, 0); (ApplicationStart, 0);
                  (ValidateService, 0)]
                 (trace r1 ++ trace r2 ++ trace r3 ++ trace r4 ++ [])
                 (final r4) Succeeded
        | S v => mkAttempt
                 [(BeforeInstall, 0); (ApplicationStop, 0); (ApplicationStart, 0);
                  (ValidateService, S v)]
                 (trace r1 ++ trace r2 ++ trace r3 ++ trace r4)
                 (final r4) (Failed ValidateService)
        end
    | S s => mkAttempt
               [(BeforeInstall, 0); (ApplicationStop, 0); (ApplicationStart, S s)]
               (trace r1 ++ trace r2 ++ trace r3) (final r3) (Failed ApplicationStart)
    end.
Proof.
  exact (pass_unfold start w).
Qed.

(** The rollback path always gets past its Stopping; what follows is
    decided by the exit status of the previous revision's ApplicationStart
    and then of ValidateService. *)
Lemma rollback_unfold (previous : Sh W unit) (a : Attempt W) :
  let r1 := application_stop exec (host a) in
  let r2 := previous (final r1) in
  let r3 := validate_service exec (final r2) in
  rollback exec previous a =
    match exit_status (result r2) with
    | 0 =>
        match exit_status (result r3) with
        | 0 => mkAttempt
                 (log a ++ [(ApplicationStop, 0); (ApplicationStart, 0); (ValidateService, 0)])
                 (events a ++ trace r1 ++ trace r2 ++ trace r3 ++ [])
                 (final r3) RolledBack
        | S v => mkAttempt
                 (log a ++ [(ApplicationStop, 0); (ApplicationStart, 0);
                            (ValidateService, S v)])
                 (events a ++ trace r1 ++ trace r2 ++ trace r3)
                 (final r3) (Failed ValidateService)
        end
    | S s => mkAttempt
               (log a ++ [(ApplicationStop, 0); (ApplicationStart, S s)])
               (events a ++ trace r1 ++ trace r2) (final r2) (Failed ApplicationStart)
    end.
Proof.
  intros r1 r2 r3. unfold rollback. cbn [run_phases].
  destruct (application_stop_run exec (host a)) as (H1 & _). fold r1 in H1. fold r1.
  rewrite H1. cbn [exit_status]. fold r2.
  destruct (exit_status (result r2)) as [| s]; cbn [log events host outcome].
  - fold r3. destruct (exit_status (result r3)) as [| v]; reflexivity.
  - reflexivity.
Qed.

Lemma count_app (p : Event -> bool) (t1 t2 : list Event) :
  count p (t1 ++ t2) = count p t1 + count p t2.
Proof.
  unfold count. rewrite filter_app. apply length_app.
Qed.

(** [application_start] always gets as far as its one [docker run]. *)
Lemma application_start_launches (w : W) :
  count is_run (trace (application_start exec w)) = 1.
Proof.
  change (wp (application_start exec) w (fun _ _ t => count is_run t = 1)).
  unfold application_start; cbv zeta. wp_run.
  all: reflexivity.
Qed.

(** An attempt enters ApplicationStart once on its way forward and at most
    once more on the rollback path. *)
Lemma attempt_start_entries (recorded : option (Sh W unit)) (start : Sh W unit) (w : W) :
  start_entries (log (attempt exec recorded start w)) <= 2.
Proof.
  unfold attempt. rewrite pass_unfold.
  destruct recorded as [previous |].
  - match goal with |- context [takes_rollback ?a] => destruct (takes_rollback a) end.
    + rewrite rollback_unfold.
      repeat match goal with
             | |- context [match ?x with 0 => _ | S _ => _ end] => destruct x
             end; cbn; lia.
    + repeat match goal with
             | |- context [match ?x with 0 => _ | S _ => _ end] => destruct x
             end; cbn; lia.
  - repeat match goal with
           | |- context [match ?x with 0 => _ | S _ => _ end] => destruct x
           end; cbn; lia.
Qed.

(** An attempt that ends Succeeded has not taken the rollback path: its
    first pass succeeded. *)
Lemma attempt_succeeded (recorded : option (Sh W unit)) (start : Sh W unit) (w : W) :
  outcome (attempt exec recorded start w) = Succeeded ->
  outcome (deploy exec start w) = Succeeded.
Proof.
  unfold deploy, attempt. destruct recorded as [previous |]; [| exact (fun H => H)].
  destruct (takes_rollback (run_phases (appspec exec start) w)); [| exact (fun H => H)].
  rewrite rollback_unfold.
  repeat match goal with
         | |- context [match ?x with 0 => _ | S _ => _ end] => destruct x
         end; cbn [outcome]; discriminate.
Qed.

End AttemptFacts.

(** ** Claims about stopping and cleaning up *)

(** C9: application_stop ends with exit status 0 whatever the runtime calls
    answer: the failures of docker stop and docker rm are swallowed by the
    fallback echoes, so that, set -e notwithstanding, the script cannot leave
    with a nonzero status and an attempt never ends Failed at the stop
    hook. *)
Theorem application_stop_always_exits_zero :
  forall (W : Type) (exec : Cmd -> W -> Reply * W) (w : W),
    exit_status (result (application_stop exec w)) = 0 /\
    forall start : Sh W unit,
      outcome (deploy exec start w) <> Failed ApplicationStop.
Proof.
  intros W exec w. split.
  - destruct (application_stop_run exec w) as (H & _). rewrite H. reflexivity.
  - intros start. rewrite deploy_unfold.
    repeat match goal with
           | |- context [match ?x with 0 => _ | S _ => _ end] => destruct x
           end; cbn [outcome]; discriminate.
Qed.

(** C5, as the code has it: a failing docker stop is not retried.  Whatever
    the runtime answers, application_stop invokes docker stop exactly once,
    then docker rm once, with no sleep (backoff) and no other command; when
    the stop failed it prints the fallback message; and it ends with exit
    status 0: it never turns a failed stop into Failed. *)
Theorem application_stop_stops_once :
  forall (W : Type) (exec : Cmd -> W -> Reply * W) (w : W),
    let r := application_stop exec w in
    commands (trace r) = [DockerStop "ecommerce-app"; DockerRm "ecommerce-app"] /\
    (exists r0,
       replies is_stop (trace r) = [r0] /\
       (status r0 <> 0 ->
        In (Print (out r0 ++ "Container was not running" ++ nl)) (trace r))) /\
    exit_status (result r) = 0.
Proof.
  intros W exec w r. subst r.
  destruct (application_stop_run exec w) as (H1 & H2 & H3). rewrite H1. auto.
Qed.

Lemma application_stop_stops_once_witness :
  In (Print ("Container was not running" ++ nl))
     (trace (application_stop Host.exec Hosts.stuck)).
Proof.
  destruct (@application_stop_stops_once Host.t Host.exec Hosts.stuck)
    as (_ & (r0 & Hr & Hmsg) & _).
  injection Hr as <-. apply Hmsg. vm_compute. discriminate.
Defined.

(** C5, counterexample: on a host whose container refuses to stop, docker
    stop fails once and for all: it is called a single time, no backoff
    follows, and the phase reports success. *)
Lemma application_stop_no_retry :
  let r := application_stop Host.exec Hosts.stuck in
  replies is_stop (trace r) = [Host.fail 1] /\
  ~ 1 < count is_stop (trace r) /\
  count is_sleep (trace r) = 0 /\
  exit_status (result r) = 0.
Proof.
  vm_compute. repeat split; try reflexivity. lia.
Qed.

(** C6: from every starting state without a container named ecommerce-app,
    before_install and application_stop both end with exit status 0, and the
    attempt goes on to the ApplicationStart hook with both successes in its
    log. *)
Theorem absent_container_is_not_an_error :
  forall (W : Type) (exec : Cmd -> W -> Reply * W) (w : W),
    container_exists exec "ecommerce-app" w = false ->
    exit_status (result (before_install exec w)) = 0 /\
    exit_status (result (application_stop exec w)) = 0 /\
    forall start : Sh W unit, exists s rest,
      log (deploy exec start w) =
        (BeforeInstall, 0) :: (ApplicationStop, 0) :: (ApplicationStart, s) :: rest.
Proof.
  intros W exec w _. split; [| split].
  - destruct (before_install_run exec w) as [H _]. rewrite H. reflexivity.
  - destruct (application_stop_run exec w) as (H & _). rewrite H. reflexivity.
  - intros start. rewrite deploy_unfold.
    repeat match goal with
           | |- context [match ?x with 0 => _ | S _ => _ end] => destruct x
           end; cbn [log]; eauto.
Qed.

Lemma absent_container_is_not_an_error_witness :
  container_exists Host.exec "ecommerce-app" Host.fresh = false /\
  exit_status (result (before_install Host.exec Host.fresh)) = 0 /\
  exit_status (result (application_stop Host.exec Host.fresh)) = 0.
Proof.
  split; [reflexivity |].
  destruct (absent_container_is_not_an_error Host.exec Host.fresh eq_refl) as (H1 & H2 & _).
  split; assumption.
Defined.

(** ** Claims about the order of the phases *)

(** C7, as the code has it: in every attempt the phases are entered in the
    one fixed order BeforeInstall, Stopping, then Installing and Starting
    (both in the ApplicationStart hook, the pull before the launch), then
    Validating, as far as the attempt gets, followed by at most one rollback
    repetition of Stopping through Validating; none is skipped, reordered or
    repeated otherwise.  The Starting phase is not free of the Stopping
    phase's actions, though: the ApplicationStart script begins with its own
    docker stop and docker rm, before it pulls and launches. *)
Theorem phases_run_in_fixed_order :
  forall (W : Type) (exec : Cmd -> W -> Reply * W)
         (recorded : option (Sh W unit)) (w : W),
    let a := attempt exec recorded (application_start exec) w in
    (exists first again,
       map fst (log a) = first ++ again /\
       (first = [BeforeInstall; ApplicationStop; ApplicationStart] \/
        first = [BeforeInstall; ApplicationStop; ApplicationStart; ValidateService]) /\
       (again = [] \/
        again = [ApplicationStop; ApplicationStart] \/
        again = [ApplicationStop; ApplicationStart; ValidateService])) /\
    (forall w' : W,
       lifecycle (trace (application_start exec w')) =
         [DockerStop "ecommerce-app"; DockerRm "ecommerce-app"; DockerPull Host.image;
          DockerRun "ecommerce-app" "80:80" "unless-stopped" Host.image]).
Proof.
  intros W exec recorded w a. split; [| intros w'; apply application_start_lifecycle].
  subst a. unfold attempt. rewrite pass_unfold.
  destruct recorded as [previous |].
  - match goal with |- context [takes_rollback ?a] => destruct (takes_rollback a) end.
    + rewrite rollback_unfold.
      repeat match goal with
             | |- context [match ?x with 0 => _ | S _ => _ end] => destruct x
             end; cbn [log]; rewrite map_app; cbn [map fst];
        do 2 eexists; (split; [reflexivity |]); auto.
    + repeat match goal with
             | |- context [match ?x with 0 => _ | S _ => _ end] => destruct x
             end; cbn [log map fst];
        do 2 eexists; (split; [symmetry; apply app_nil_r |]); auto.
  - repeat match goal with
           | |- context [match ?x with 0 => _ | S _ => _ end] => destruct x
           end; cbn [log map fst];
      do 2 eexists; (split; [symmetry; apply app_nil_r |]); auto.
Qed.

(** C7, counterexample: on a host whose service is up, the ApplicationStart
    script starts with the Stopping phase's two actions, and both take
    effect: it stops and removes the running container itself. *)
Lemma application_start_repeats_stop :
  let r := application_start Host.exec Hosts.serving in
  firstn 2 (commands (trace r)) = [DockerStop "ecommerce-app"; DockerRm "ecommerce-app"] /\
  map status (replies is_stop (trace r)) = [0] /\
  map status (replies is_rm (trace r)) = [0] /\
  count is_stop (trace r) <> 0.
Proof.
  vm_compute. repeat split; discriminate.
Qed.

(** C2: when application_start does not see the new container running at
    its docker ps check after the ten seconds of waiting, and a rollback
    target is recorded, the attempt takes the rollback path once: it enters
    Stopping again and then the previous revision's ApplicationStart, and
    Validating when that one succeeded.  It ends RolledBack when the second
    pass succeeded and Failed otherwise.  No attempt, whatever its scripts
    and its host, enters ApplicationStart a third time. *)
Theorem failed_start_rolls_back_once :
  forall (W : Type) (exec : Cmd -> W -> Reply * W) (previous : Sh W unit) (w : W),
    let r := application_start exec
               (final (application_stop exec (final (before_install exec w)))) in
    let back := previous (final (application_stop exec (final r))) in
    let check := validate_service exec (final back) in
    let a := attempt exec (Some previous) (application_start exec) w in
    exit_status (result r) <> 0 ->
    (exists p, replies is_ps (trace r) = [p] /\
               status (grep_q ["ecommerce-app"] (out p)) <> 0) /\
    start_entries (log a) = 2 /\
    (exists rest,
       log a = [(BeforeInstall, 0); (ApplicationStop, 0); (ApplicationStart, 1);
                (ApplicationStop, 0); (ApplicationStart, exit_status (result back))]
               ++ rest /\
       (rest = [] \/ rest = [(ValidateService, exit_status (result check))])) /\
    (outcome a = RolledBack <->
     exit_status (result back) = 0 /\ exit_status (result check) = 0) /\
    (outcome a = RolledBack \/ outcome a = Failed ApplicationStart \/
     outcome a = Failed ValidateService) /\
    (forall (recorded : option (Sh W unit)) (start : Sh W unit) (w' : W),
       start_entries (log (attempt exec recorded start w')) <= 2).
Proof.
  intros W exec previous w r back check a Hfail.
  destruct (application_start_run exec
              (final (application_stop exec (final (before_install exec w)))))
    as (_ & Hr & p & Hp & Hiff).
  fold r in Hr, Hp, Hiff.
  assert (Hexit : result r = Exit 1).
  { destruct Hr as [Hr | Hr]; [rewrite Hr in Hfail; contradiction | exact Hr]. }
  split; [exists p; split; [exact Hp | apply Hiff; exact Hexit] |].
  assert (Ha : a = rollback exec previous
                 (mkAttempt
                    [(BeforeInstall, 0); (ApplicationStop, 0); (ApplicationStart, 1)]
                    (trace (before_install exec w) ++
                     trace (application_stop exec (final (before_install exec w))) ++
                     trace r)
                    (final r) (Failed ApplicationStart))).
  { subst a. unfold attempt. rewrite pass_unfold. fold r. rewrite Hexit.
    cbn [exit_status]. unfold takes_rollback. cbn [outcome events].
    rewrite !count_app. subst r. rewrite application_start_launches.
    match goal with
    | |- context [?n =? 0] =>
        replace (n =? 0) with false by (symmetry; apply Nat.eqb_neq; lia)
    end.
    reflexivity. }
  rewrite Ha, rollback_unfold. cbn [host log]. fold back. fold check.
  split; [| split; [| split; [| split; [| intros; apply attempt_start_entries]]]].
  - destruct (exit_status (result back)); [destruct (exit_status (result check)) |];
      reflexivity.
  - destruct (exit_status (result back)); [destruct (exit_status (result check)) |];
      cbn [log app]; eexists; (split; [reflexivity |]); auto.
  - destruct (exit_status (result back)); [destruct (exit_status (result check)) |];
      cbn [outcome]; split; intros H; try discriminate; try (destruct H; discriminate);
      auto.
  - destruct (exit_status (result back)); [destruct (exit_status (result check)) |];
      cbn [outcome]; auto.
Qed.

(** On a host where the previous artifact is running and the container of
    the new image exits during the ten seconds of waiting, with the
    repository's own ApplicationStart script recorded as the previous
    revision's: the script pulls the tag latest again, the rollback pass
    fails like the first one, and the attempt ends Failed with two entries
    of ApplicationStart. *)
Lemma failed_start_rolls_back_once_witness :
  let a := attempt Host.exec (Some (application_start Host.exec))
             (application_start Host.exec) Hosts.bad_release in
  start_entries (log a) = 2 /\ outcome a = Failed ApplicationStart.
Proof.
  split; [| vm_compute; reflexivity].
  apply (proj1 (proj2 (@failed_start_rolls_back_once Host.t Host.exec
                         (application_start Host.exec) Hosts.bad_release
                         ltac:(vm_compute; discriminate)))).
Defined.

(** ** Claims about unknown artifact references *)

Section Variant.

Variable W : Type.
Variable exec : Cmd -> W -> Reply * W.

(** The sibling script fails closed: when the repository is not there, or
    when the pull fails, it leaves with a nonzero status and has not run
    docker run. *)
Lemma application_start_variant_fails_closed (w : W) :
  wp (application_start_variant exec) w (fun r _ t =>
    (forall d, In d (replies is_describe t) -> status d <> 0 ->
               count is_run t = 0 /\ r = Exit 1) /\
    (forall p rest, replies is_pull t = p :: rest -> status p <> 0 ->
               count is_run t = 0 /\ r = Exit (status p))).
Proof.
  unfold application_start_variant; cbv zeta. wp_run.
  all: trace_simpl; split; [intros d Hin Hd | intros p rest Hp Hs].
  all: try (repeat (destruct Hin as [<- | Hin]); try contradiction;
            first [congruence | split; reflexivity]).
  all: first [ discriminate Hp
             | injection Hp as <- <-;
               first [congruence | split; [reflexivity | congruence]] ].
Qed.

End Variant.

(** C1, at the failing input: the registry does not know the reference, the
    pull fails, and application_start (which has no set -e) goes on to
    docker run, which starts a container from the image left in the local
    cache.  The script ends with status 0 and the attempt ends Succeeded. *)
Theorem unknown_reference_still_launches :
  let r := application_start Host.exec Hosts.unknown_reference in
  let a := deploy Host.exec (application_start Host.exec) Hosts.unknown_reference in
  Host.mem Host.image (Host.registry Hosts.unknown_reference) = false /\
  map status (replies is_pull (trace r)) = [1] /\
  map status (replies is_run (trace r)) = [0] /\
  Host.running "ecommerce-app" (final r) = true /\
  exit_status (result r) = 0 /\
  outcome a = Succeeded.
Proof.
  vm_compute. repeat split.
Qed.

(** ** The duplicated pull-and-run block *)

Section NameConflict.

Variable W : Type.
Variable exec : Cmd -> W -> Reply * W.

(** What docker guarantees about container names. *)
Hypothesis run_creates : forall n p rs i w,
  status (fst (exec (DockerRun n p rs i) w)) = 0 ->
  container_exists exec n (snd (exec (DockerRun n p rs i) w)) = true.
Hypothesis names_are_unique : forall n p rs i w,
  container_exists exec n w = true ->
  status (fst (exec (DockerRun n p rs i) w)) <> 0.
Hypothesis pull_keeps_containers : forall n i w,
  container_exists exec n w = true ->
  container_exists exec n (snd (exec (DockerPull i) w)) = true.

Lemma second_run_conflicts n p rs i j w1 r1 w2 r2 w3 r3 w4 :
  exec (DockerRun n p rs i) w1 = (r1, w2) -> status r1 = 0 ->
  exec (DockerPull j) w2 = (r2, w3) ->
  exec (DockerRun n p rs i) w3 = (r3, w4) ->
  status r3 <> 0.
Proof.
  intros E1 S1 E2 E3.
  pose proof (run_creates n p rs i w1) as H1. rewrite E1 in H1. cbn [fst snd] in H1.
  specialize (H1 S1).
  pose proof (pull_keeps_containers n j w2 H1) as H2. rewrite E2 in H2. cbn [snd] in H2.
  pose proof (names_are_unique n p rs i w3 H2) as H3. rewrite E3 in H3. exact H3.
Qed.

Lemma application_start_variant_conflict (w : W) :
  wp (application_start_variant exec) w (fun r _ t =>
    exit_status r <> 0 /\
    forall r1 rest, replies is_run t = r1 :: rest -> status r1 = 0 ->
      count is_sleep t = 0 /\ count is_ps t = 0 /\
      ((exists r2, rest = [r2] /\ status r2 <> 0 /\ r = Exit (status r2)) \/
       (rest = [] /\ exists p1 p2,
          replies is_pull t = [p1; p2] /\ status p2 <> 0 /\ r = Exit (status p2)))).
Proof.
  unfold application_start_variant; cbv zeta. wp_run.
  all: try match goal with
       | E1 : exec (DockerRun ?n ?p ?rs ?i) ?w1 = (?r1, ?w2), S1 : status ?r1 = 0,
         E2 : exec (DockerPull ?j) ?w2 = (_, ?w3),
         E3 : exec (DockerRun ?n ?p ?rs ?i) ?w3 = (?r3, _), S3 : status ?r3 = 0 |- _ =>
           exfalso; exact (second_run_conflicts E1 S1 E2 E3 S3)
       end.
  all: trace_simpl; cbn [exit_status]; (split; [discriminate || congruence |]).
  all: intros x rest Hx Sx.
  all: first [ discriminate Hx | injection Hx as <- <- ].
  all: try congruence.
  all: repeat (split; [reflexivity |]).
  all: first
    [ left; eexists; split; [reflexivity | split; congruence]
    | right; split; [reflexivity |];
      do 2 eexists; split; [reflexivity | split; congruence] ].
Qed.

End NameConflict.

(** The reference machine keeps docker's rules about names. *)
Lemma host_container_exists (n : string) (h : Host.t) :
  container_exists Host.exec n h = Host.has_container n h.
Proof.
  unfold container_exists, Host.has_container. cbn [Host.exec].
  destruct (Host.find n h); reflexivity.
Qed.

Lemma host_run_creates n p rs i h :
  status (fst (Host.exec (DockerRun n p rs i) h)) = 0 ->
  container_exists Host.exec n (snd (Host.exec (DockerRun n p rs i) h)) = true.
Proof.
  rewrite host_container_exists. cbn [Host.exec].
  destruct (Host.has_container n h); [discriminate |].
  destruct (Host.mem i (Host.images h) || Host.mem i (Host.registry h)); [| discriminate].
  intros _. cbn [snd]. unfold Host.has_container, Host.find.
  cbn [Host.containers Host.with_containers List.find Host.c_name].
  rewrite String.eqb_refl. reflexivity.
Qed.

Lemma host_names_are_unique n p rs i h :
  container_exists Host.exec n h = true ->
  status (fst (Host.exec (DockerRun n p rs i) h)) <> 0.
Proof.
  rewrite host_container_exists. intros H. cbn [Host.exec]. rewrite H. discriminate.
Qed.

Lemma host_pull_keeps_containers n i h :
  container_exists Host.exec n h = true ->
  container_exists Host.exec n (snd (Host.exec (DockerPull i) h)) = true.
Proof.
  rewrite !host_container_exists. intros H. cbn [Host.exec].
  destruct (Host.mem i (Host.registry h) && (0 <? Host.pulls_left h)); exact H.
Qed.

(** C8, as the code has it: on a docker that keeps container names unique,
    the script with the duplicated block never ends with status 0.  In every
    execution whose first docker run created the container, the script
    leaves with a nonzero status before its verification step (no sleep, no
    docker ps): at the second docker run, which fails, or already at the
    second docker pull when that one fails. *)
Theorem duplicated_block_always_fails :
  forall (W : Type) (exec : Cmd -> W -> Reply * W),
    (forall n p rs i w,
       status (fst (exec (DockerRun n p rs i) w)) = 0 ->
       container_exists exec n (snd (exec (DockerRun n p rs i) w)) = true) ->
    (forall n p rs i w,
       container_exists exec n w = true ->
       status (fst (exec (DockerRun n p rs i) w)) <> 0) ->
    (forall n i w,
       container_exists exec n w = true ->
       container_exists exec n (snd (exec (DockerPull i) w)) = true) ->
    forall w : W,
      let r := application_start_variant exec w in
      exit_status (result r) <> 0 /\
      forall r1 rest, replies is_run (trace r) = r1 :: rest -> status r1 = 0 ->
        count is_sleep (trace r) = 0 /\ count is_ps (trace r) = 0 /\
        ((exists r2, rest = [r2] /\ status r2 <> 0 /\ result r = Exit (status r2)) \/
         (rest = [] /\ exists p1 p2,
            replies is_pull (trace r) = [p1; p2] /\ status p2 <> 0 /\
            result r = Exit (status p2))).
Proof.
  intros W exec H1 H2 H3 w r.
  exact (@application_start_variant_conflict W exec H1 H2 H3 w).
Qed.

Lemma duplicated_block_always_fails_witness :
  let r := application_start_variant Host.exec Host.fresh in
  map status (replies is_run (trace r)) = [0; 125] /\
  exit_status (result r) <> 0.
Proof.
  split; [vm_compute; reflexivity |].
  exact (proj1 (@duplicated_block_always_fails Host.t Host.exec
                  host_run_creates host_names_are_unique host_pull_keeps_containers
                  Host.fresh)).
Defined.

(** C8, counterexample: the registry serves one pull.  The first docker run
    creates the container; the second docker pull fails and set -e ends the
    script there: a second docker run never takes place. *)
Lemma second_pull_fails_before_second_run :
  let r := application_start_variant Host.exec Hosts.one_pull_left in
  map status (replies is_run (trace r)) = [0] /\
  Host.has_container "ecommerce-app" (final r) = true /\
  map status (replies is_pull (trace r)) = [0; 1] /\
  ~ (exists r1 r2, replies is_run (trace r) = [r1; r2]) /\
  exit_status (result r) = 1.
Proof.
  vm_compute. repeat split. intros (r1 & r2 & H). discriminate H.
Qed.

(** ** Comparing the runs of a script on two machines *)

Section Agree.

Variable W : Type.
Variable E : nat -> nat -> Prop.
Hypothesis E_refl : forall n, E n n.

Lemma agree_refl (m : Sh W unit) : agree E m m.
Proof.
  intros w. unfold same_outcome. destruct (result (m w)); auto.
Qed.

Lemma agree_bind (m1 m2 k1 k2 : Sh W unit) :
  agree E m1 m2 -> agree E k1 k2 ->
  agree E (m1 ;; k1) (m2 ;; k2).
Proof.
  intros Hm Hk w. specialize (Hm w). unfold same_outcome, bind in *.
  destruct (m1 w) as [[[] | n1] w1 t1], (m2 w) as [[[] | n2] w2 t2];
    cbn [result final] in *; try contradiction.
  - subst w2. specialize (Hk w1). unfold same_outcome in Hk.
    destruct (k1 w1) as [r1 v1 s1], (k2 w1) as [r2 v2 s2]. cbn [result final] in *.
    exact Hk.
  - exact Hm.
Qed.

End Agree.

Lemma same_outcome_verdict (W : Type) (r1 r2 : Run W unit) :
  same_outcome same_verdict r1 r2 ->
  (exit_status (result r1) = 0 <-> exit_status (result r2) = 0).
Proof.
  unfold same_outcome, same_verdict.
  destruct (result r1), (result r2); cbn [exit_status]; tauto.
Qed.

Lemma same_outcome_eq (W : Type) (r1 r2 : Run W unit) :
  same_outcome eq r1 r2 ->
  exit_status (result r1) = exit_status (result r2).
Proof.
  unfold same_outcome.
  destruct (result r1), (result r2); cbn [exit_status]; tauto.
Qed.

Lemma same_verdict_refl (n : nat) : same_verdict n n.
Proof. unfold same_verdict. tauto. Qed.

Ltac same_block E_refl := apply agree_refl; exact E_refl.

(** ** validate_service and the measured response time *)

Section ResponseTime.

Variable W : Type.
Variable exec : Cmd -> W -> Reply * W.
Variable t : W -> string.

Lemma check_performance_any_time :
  agree eq (check_performance (with_time_total exec t)) (check_performance exec).
Proof.
  intros w. apply same_outcome_wp.
  unfold check_performance; cbv zeta. wp_run.
  all: reflexivity.
Qed.

Lemma validate_service_any_time :
  agree eq (validate_service (with_time_total exec t)) (validate_service exec).
Proof.
  unfold validate_service; cbv zeta.
  do 8 (apply agree_bind; [same_block (@eq_refl nat) |]).
  apply agree_bind; [apply check_performance_any_time |].
  apply agree_bind; same_block (@eq_refl nat).
Qed.

End ResponseTime.

(** What the performance check does with the measurement: it prints it;
    only a failure of the measuring command ends the script. *)
Lemma check_performance_run (W : Type) (exec : Cmd -> W -> Reply * W) (w : W) :
  let r := fst (exec (CurlTimeTotal "http://localhost/") w) in
  (status r = 0 ->
   result (check_performance exec w) = Ret tt /\
   In (Print (("Response time: " ++ strip_trailing_newlines (out r) ++ "s") ++ nl))
      (trace (check_performance exec w))) /\
  (status r <> 0 -> result (check_performance exec w) = Exit (status r)).
Proof.
  change (wp (check_performance exec) w (fun res _ t =>
    let r := fst (exec (CurlTimeTotal "http://localhost/") w) in
    (status r = 0 ->
     res = Ret tt /\
     In (Print (("Response time: " ++ strip_trailing_newlines (out r) ++ "s") ++ nl)) t) /\
    (status r <> 0 -> res = Exit (status r)))).
  unfold check_performance; cbv zeta. wp_run.
  all: split; intros Hs; try congruence.
  all: split; [reflexivity | cbn [app In]; auto 10].
Qed.

(** C4, as the code has it: validate_service measures the response time of
    one request and prints it, and compares it with nothing.  Whatever time
    the measurement reports, the script ends with the same exit status; the
    performance check ends the script only when the measuring command itself
    fails. *)
Theorem validate_service_ignores_response_time :
  forall (W : Type) (exec : Cmd -> W -> Reply * W) (t : W -> string) (w : W),
    exit_status (result (validate_service (with_time_total exec t) w)) =
    exit_status (result (validate_service exec w)) /\
    let r := fst (exec (CurlTimeTotal "http://localhost/") w) in
    (status r = 0 ->
     result (check_performance exec w) = Ret tt /\
     In (Print (("Response time: " ++ strip_trailing_newlines (out r) ++ "s") ++ nl))
        (trace (check_performance exec w))) /\
    (status r <> 0 -> result (check_performance exec w) = Exit (status r)).
Proof.
  intros W exec t w. split.
  - apply same_outcome_eq. apply validate_service_any_time.
  - apply check_performance_run.
Qed.

(** A slow but healthy service: the time is printed, the validation passes. *)
Lemma validate_service_ignores_response_time_witness :
  let h := Hosts.slow 120000000 in
  In (Print ("Response time: 120.000000s" ++ nl)) (trace (check_performance Host.exec h)) /\
  exit_status (result (validate_service Host.exec h)) = 0.
Proof.
  intros h. split; [| vm_compute; reflexivity].
  destruct (@validate_service_ignores_response_time Host.t Host.exec
              (fun _ => EmptyString) h) as (_ & Hok & _).
  destruct Hok as [_ Hin]; [vm_compute; reflexivity |].
  exact Hin.
Defined.

(** C4, counterexample: no ceiling makes the claim true.  Whatever the
    ceiling, a service that answers well but later than the ceiling passes
    validation. *)
Lemma validate_service_has_no_latency_ceiling :
  ~ exists ceiling : N, forall h : Host.t,
      (ceiling < Host.latency_us h)%N ->
      exit_status (result (validate_service Host.exec h)) <> 0.
Proof.
  intros [c H]. apply (H (Hosts.slow (c + 1))).
  - cbn. lia.
  - lazy. reflexivity.
Qed.

(** ** validate_service and the container log *)

Lemma strip_no_newline (s : string) :
  no_newline s -> strip_trailing_newlines (s ++ nl) = s.
Proof.
  induction s as [| c s IH]; cbn [no_newline String.append strip_trailing_newlines].
  - intros _. reflexivity.
  - intros [Hc Hs]. rewrite (IH Hs).
    destruct s.
    + apply Ascii.eqb_neq in Hc. rewrite Hc. reflexivity.
    + reflexivity.
Qed.

Lemma string_of_uint_no_newline (d : Decimal.uint) :
  no_newline (NilEmpty.string_of_uint d).
Proof.
  induction d; cbn [NilEmpty.string_of_uint no_newline]; auto; split; auto; discriminate.
Qed.

Lemma show_nat_injective (n m : nat) : show_nat n = show_nat m -> n = m.
Proof.
  unfold show_nat. intros H.
  apply (f_equal NilEmpty.uint_of_string) in H. rewrite !NilEmpty.usu in H.
  injection H as H. apply (f_equal Nat.of_uint) in H.
  rewrite !DecimalNat.Unsigned.of_to in H. exact H.
Qed.

(** The test on ERROR_COUNT is the test on the number of lines counted. *)
Lemma int_eq_count (k : nat) :
  int_eq (strip_trailing_newlines (show_nat k ++ nl)) 0 = (k =? 0).
Proof.
  rewrite strip_no_newline by apply string_of_uint_no_newline.
  unfold int_eq. destruct (k =? 0) eqn:E.
  - apply Nat.eqb_eq in E. subst. reflexivity.
  - apply String.eqb_neq. intros H. apply show_nat_injective in H.
    apply Nat.eqb_neq in E. contradiction.
Qed.

(** The log scan never ends the script; a count other than zero prints the
    warning, a count of zero asks for the log only once. *)
Lemma check_logs_run (W : Type) (exec : Cmd -> W -> Reply * W) (w : W) :
  wp (check_logs exec) w (fun r _ t =>
    r = Ret tt /\
    forall l rest, replies is_logs_call t = l :: rest ->
      let k := wc_l (out (grep true error_words (out l))) in
      (k = 0 -> rest = []) /\
      (k <> 0 ->
       In (Print (("⚠️  Found " ++ show_nat k ++ " potential errors in logs") ++ nl)) t)).
Proof.
  unfold check_logs; cbv zeta. wp_run.
  all: split; [reflexivity |].
  all: cbn [replies is_logs_call app]; intros l rest Hl; injection Hl as <- <-.
  all: cbv zeta; rewrite int_eq_count in *.
  all: match goal with B : (_ =? 0) = _ |- _ =>
         first [apply Nat.eqb_eq in B | apply Nat.eqb_neq in B] end.
  all: split; intros Hk; try congruence.
  all: rewrite strip_no_newline by apply string_of_uint_no_newline.
  all: cbn [In]; auto 10.
Qed.

Section ContainerLog.

Variable W : Type.
Variable exec : Cmd -> W -> Reply * W.
Variables f g : Cmd -> W -> Reply.

Lemma check_logs_any_logs :
  agree same_verdict (check_logs (with_logs exec f)) (check_logs (with_logs exec g)).
Proof.
  intros w. apply same_outcome_wp.
  unfold check_logs; cbv zeta. wp_run.
  all: reflexivity.
Qed.

Lemma check_health_any_logs :
  agree same_verdict (check_health (with_logs exec f)) (check_health (with_logs exec g)).
Proof.
  intros w. apply same_outcome_wp.
  unfold check_health; cbv zeta. wp_run.
  all: try reflexivity.
  all: unfold same_verdict; split; discriminate.
Qed.

Lemma check_http_any_logs :
  agree same_verdict (check_http (with_logs exec f)) (check_http (with_logs exec g)).
Proof.
  intros w. apply same_outcome_wp.
  unfold check_http; cbv zeta. wp_run.
  all: try reflexivity.
  all: unfold same_verdict; split; discriminate.
Qed.

Lemma validate_service_any_logs :
  agree same_verdict (validate_service (with_logs exec f))
                     (validate_service (with_logs exec g)).
Proof.
  unfold validate_service; cbv zeta.
  do 4 (apply agree_bind; [same_block same_verdict_refl |]).
  apply agree_bind; [apply check_health_any_logs |].
  apply agree_bind; [apply check_http_any_logs |].
  apply agree_bind; [same_block same_verdict_refl |].
  apply agree_bind; [apply check_logs_any_logs |].
  do 2 (apply agree_bind; [same_block same_verdict_refl |]).
  same_block same_verdict_refl.
Qed.

End ContainerLog.

(** C10: the scan of the container log for error, fail and exception never
    decides the phase.  The scan itself never ends the script: an error count
    other than zero prints the warning and the script goes on.  And whatever
    two logs docker logs may show, validate_service succeeds with the one
    exactly when it succeeds with the other. *)
Theorem validate_service_ignores_logs :
  forall (W : Type) (exec : Cmd -> W -> Reply * W) (f g : Cmd -> W -> Reply) (w : W),
    (result (check_logs exec w) = Ret tt /\
     forall l rest, replies is_logs_call (trace (check_logs exec w)) = l :: rest ->
       let k := wc_l (out (grep true error_words (out l))) in
       k <> 0 ->
       In (Print (("⚠️  Found " ++ show_nat k ++ " potential errors in logs") ++ nl))
          (trace (check_logs exec w))) /\
    (exit_status (result (validate_service (with_logs exec f) w)) = 0 <->
     exit_status (result (validate_service (with_logs exec g) w)) = 0).
Proof.
  intros W exec f g w. split; [split |].
  - apply (check_logs_run exec w).
  - intros l rest Hl. apply (proj2 (check_logs_run exec w) l rest Hl).
  - apply same_outcome_verdict, validate_service_any_logs.
Qed.

(** A log full of errors on a host whose service is up: the warning is
    printed and the validation passes, as it does with an empty log. *)
Lemma validate_service_ignores_logs_witness :
  let noisy := with_logs Host.exec (fun _ _ => ok "FATAL ERROR: exception in checkout") in
  let quiet := with_logs Host.exec (fun _ _ => ok EmptyString) in
  In (Print (("⚠️  Found " ++ show_nat 1 ++ " potential errors in logs") ++ nl))
     (trace (check_logs noisy Hosts.serving)) /\
  exit_status (result (validate_service noisy Hosts.serving)) = 0 /\
  exit_status (result (validate_service quiet Hosts.serving)) = 0.
Proof.
  intros noisy quiet.
  destruct (@validate_service_ignores_logs Host.t Host.exec
              (fun _ _ => ok "FATAL ERROR: exception in checkout")
              (fun _ _ => ok EmptyString) Hosts.serving) as [_ Hiff].
  destruct (@validate_service_ignores_logs Host.t noisy
              (fun _ _ => ok EmptyString) (fun _ _ => ok EmptyString) Hosts.serving)
    as [[_ Hwarn] _].
  split; [| split].
  - apply (Hwarn (ok "FATAL ERROR: exception in checkout")
                 [ok "FATAL ERROR: exception in checkout"]); [reflexivity |].
    vm_compute. discriminate.
  - apply Hiff. vm_compute. reflexivity.
  - vm_compute. reflexivity.
Defined.

(** ** validate_service and its three signals *)

Lemma strip_app_tail (s t : string) :
  strip_trailing_newlines t <> EmptyString ->
  strip_trailing_newlines (s ++ t) = (s ++ strip_trailing_newlines t)%string.
Proof.
  intros Ht. induction s as [| c s IH]; cbn [String.append strip_trailing_newlines].
  - reflexivity.
  - rewrite IH. destruct (s ++ strip_trailing_newlines t)%string eqn:Es.
    + destruct s; cbn in Es; [contradiction | discriminate].
    + reflexivity.
Qed.

(** The value of HTTP_CODE after a failed curl ends in the 000 of the
    fallback echo: it is not 200. *)
Lemma fallback_code_is_not_200 (s : string) :
  String.eqb (strip_trailing_newlines (s ++ "000" ++ nl)) "200" = false.
Proof.
  rewrite strip_app_tail by (cbn; discriminate).
  change (strip_trailing_newlines ("000" ++ nl)) with "000".
  apply String.eqb_neq.
  destruct s as [| a [| b [| c [| d s]]]]; cbn; intros H; inversion H.
Qed.

(** RESPONSE is not empty only if grep selected a line of the body. *)
Lemma response_has_marker (body : string) :
  negb (String.eqb
    (strip_trailing_newlines
       (unlines (firstn 1 (lines (out (grep true markers body)))))) EmptyString) = true ->
  body <> EmptyString /\ has_marker body = true.
Proof.
  intros H.
  assert (Hsel : grep_lines true markers body <> []).
  { intros Hnil. unfold grep in H. rewrite Hnil in H. cbn [out] in H.
    destruct (binary body); cbn in H; discriminate. }
  unfold grep_lines in Hsel.
  destruct (filter (line_matches true markers) (lines body)) as [| l ls] eqn:Ef;
    [contradiction |].
  assert (Hin : In l (filter (line_matches true markers) (lines body)))
    by (rewrite Ef; left; reflexivity).
  apply filter_In in Hin. destruct Hin as [Hl Hm].
  split.
  - intros ->. cbn in Hl. exact Hl.
  - unfold has_marker. apply existsb_exists. exists l. auto.
Qed.

Section Signals.

Variable W : Type.
Variable exec : Cmd -> W -> Reply * W.

(** A successful run of validate_service asked each question once and got
    the three answers it insists on. *)
Lemma validate_service_success (w : W) :
  wp (validate_service exec) w (fun r _ t =>
    exit_status r = 0 ->
    exists i c b,
      replies is_inspect t = [i] /\ status i = 0 /\
      strip_trailing_newlines (out i) = "running" /\
      replies is_http_code t = [c] /\ status c = 0 /\
      strip_trailing_newlines (out c) = "200" /\
      replies is_get t = [b] /\ out b <> EmptyString /\ has_marker (out b) = true).
Proof.
  unfold validate_service; cbv zeta.
  wp_run.
  all: cbn [exit_status]; try (intros; discriminate).
  all: try match goal with
       | H : String.eqb (strip_trailing_newlines (_ ++ "000" ++ nl)) "200" = true |- _ =>
           rewrite fallback_code_is_not_200 in H; discriminate
       end.
  all: intros _.
  all: match goal with
       | E1 : exec (DockerInspectStatus _) _ = (?i, _),
         E2 : exec (CurlHttpCode _) _ = (?c, _),
         E3 : exec (CurlGet _) _ = (?b, _) |- _ => exists i, c, b
       end.
  all: trace_simpl.
  all: match goal with
       | H : negb _ = true |- _ => apply response_has_marker in H; destruct H
       end.
  all: repeat match goal with
       | H : String.eqb _ _ = true |- _ => apply String.eqb_eq in H
       end.
  all: repeat split; assumption || reflexivity.
Qed.

End Signals.

(** C3: validate_service reports success only if all three signals hold:
    docker inspect answered that the container is running, the HTTP probe
    succeeded with code 200, and the page fetched for the content test was
    not empty and held one of the markers ecommerce, shop, product.  In
    particular a run whose page fetch came back empty ends with a nonzero
    exit status, whatever the process state and the HTTP code were, and an
    attempt whose validation made such a fetch does not end Succeeded,
    whether or not a rollback target is recorded for it. *)
Theorem validate_service_needs_three_signals :
  forall (W : Type) (exec : Cmd -> W -> Reply * W) (w : W),
    let r := validate_service exec w in
    (exit_status (result r) = 0 ->
     exists i c b,
       replies is_inspect (trace r) = [i] /\ status i = 0 /\
       strip_trailing_newlines (out i) = "running" /\
       replies is_http_code (trace r) = [c] /\ status c = 0 /\
       strip_trailing_newlines (out c) = "200" /\
       replies is_get (trace r) = [b] /\ out b <> EmptyString /\
       has_marker (out b) = true) /\
    (forall b, In b (replies is_get (trace r)) -> out b = EmptyString ->
               exit_status (result r) <> 0) /\
    (forall (start : Sh W unit) (w0 : W) b,
       w = final (start (final (application_stop exec (final (before_install exec w0))))) ->
       In b (replies is_get (trace r)) -> out b = EmptyString ->
       outcome (deploy exec start w0) <> Succeeded) /\
    (forall (recorded : option (Sh W unit)) (start : Sh W unit) (w0 : W) b,
       w = final (start (final (application_stop exec (final (before_install exec w0))))) ->
       In b (replies is_get (trace r)) -> out b = EmptyString ->
       outcome (attempt exec recorded start w0) <> Succeeded).
Proof.
  intros W exec w r.
  assert (H := validate_service_success exec w). unfold wp in H. fold r in H.
  assert (Hempty : forall b, In b (replies is_get (trace r)) -> out b = EmptyString ->
                             exit_status (result r) <> 0).
  { intros b Hin Hempty Hok.
    destruct (H Hok) as (i & c & b' & _ & _ & _ & _ & _ & _ & Hb & Hne & _).
    rewrite Hb in Hin. destruct Hin as [<- | []]. contradiction. }
  assert (Hdeploy : forall (start : Sh W unit) (w0 : W) b,
            w = final (start (final (application_stop exec (final (before_install exec w0))))) ->
            In b (replies is_get (trace r)) -> out b = EmptyString ->
            outcome (deploy exec start w0) <> Succeeded).
  { intros start w0 b Hw Hin Hb. specialize (Hempty b Hin Hb).
    rewrite deploy_unfold. rewrite <- Hw. fold r.
    destruct (exit_status (result (start _))); [| discriminate].
    destruct (exit_status (result r)); [contradiction | discriminate]. }
  split; [exact H | split; [exact Hempty | split; [exact Hdeploy |]]].
  intros recorded start w0 b Hw Hin Hb Hs.
  apply attempt_succeeded in Hs. exact (Hdeploy start w0 b Hw Hin Hb Hs).
Qed.

Lemma validate_service_needs_three_signals_witness :
  exit_status (result (validate_service Host.exec Hosts.serving)) = 0 /\
  exists i c b,
    replies is_inspect (trace (validate_service Host.exec Hosts.serving)) = [i] /\
    status i = 0 /\ strip_trailing_newlines (out i) = "running" /\
    replies is_http_code (trace (validate_service Host.exec Hosts.serving)) = [c] /\
    status c = 0 /\ strip_trailing_newlines (out c) = "200" /\
    replies is_get (trace (validate_service Host.exec Hosts.serving)) = [b] /\
    out b <> EmptyString /\ has_marker (out b) = true.
Proof.
  split; [vm_compute; reflexivity |].
  apply (proj1 (validate_service_needs_three_signals Host.exec Hosts.serving)).
  vm_compute; reflexivity.
Defined.

(** The run the claim singles out: the container runs, the code is 200 and
    the body is empty; the script leaves with status 1. *)
Lemma validate_service_rejects_empty_body :
  let r := validate_service Host.exec Hosts.empty_body in
  map (fun i => strip_trailing_newlines (out i)) (replies is_inspect (trace r)) = ["running"] /\
  map out (replies is_http_code (trace r)) = ["200"] /\
  exit_status (result r) = 1.
Proof.
  vm_compute. repeat split.
Qed.

(** * More about the hook scripts *)

(** The run of a script with its postcondition kept folded, so that the
    steps do not copy it. *)
Ltac wp_run_post :=
  lazymatch goal with
  | |- wp _ _ ?Q => let P := fresh "P" in set (P := Q); wp_run; subst P; cbv beta
  end.

Lemma append_empty (s : string) : (s ++ EmptyString)%string = s.
Proof.
  induction s as [| c s IH]; cbn [String.append]; congruence.
Qed.

(** ** before_install *)

(** X1: before_install (no set -e) never leaves early and always ends with
    exit status 0.  What it runs is decided by the two [command -v] tests
    alone: when docker is missing all five installation steps run, whichever
    of them fails; docker is started in either case; when the aws command is
    missing the three installation steps of the AWS CLI run; the stop and
    the removal of the container always come last. *)
Theorem before_install_steps :
  forall (W : Type) (exec : Cmd -> W -> Reply * W) (w : W),
    let r := before_install exec w in
    exit_status (result r) = 0 /\
    exists d a,
      replies is_command_v (trace r) = [d; a] /\
      commands (trace r) =
        CommandV "docker" ::
        (if status d =? 0 then [SystemctlStart "docker"]
         else [YumUpdate; YumInstall "docker"; SystemctlStart "docker";
               SystemctlEnable "docker"; Usermod "docker" "ec2-user"]) ++
        CommandV "aws" ::
        (if status a =? 0 then []
         else [CurlDownload "https://awscli.amazonaws.com/awscli-exe-linux-x86_64.zip"
                 "awscliv2.zip"; Unzip "awscliv2.zip"; AwsInstall]) ++
        [DockerStop "ecommerce-app"; DockerRm "ecommerce-app"].
Proof.
  intros W exec w.
  change (wp (before_install exec) w (fun res _ t =>
    exit_status res = 0 /\
    exists d a,
      replies is_command_v t = [d; a] /\
      commands t =
        CommandV "docker" ::
        (if status d =? 0 then [SystemctlStart "docker"]
         else [YumUpdate; YumInstall "docker"; SystemctlStart "docker";
               SystemctlEnable "docker"; Usermod "docker" "ec2-user"]) ++
        CommandV "aws" ::
        (if status a =? 0 then []
         else [CurlDownload "https://awscli.amazonaws.com/awscli-exe-linux-x86_64.zip"
                 "awscliv2.zip"; Unzip "awscliv2.zip"; AwsInstall]) ++
        [DockerStop "ecommerce-app"; DockerRm "ecommerce-app"])).
  unfold before_install; cbv zeta. wp_run_post.
  all: split; [reflexivity |].
  all: do 2 eexists; split; [reflexivity |].
  all: repeat match goal with H : status _ = _ |- _ => rewrite H; clear H end.
  all: reflexivity.
Qed.

(** ** application_stop *)

(** X2: what application_stop writes.  The fallback message of a command
    follows its output exactly when the command failed, and the last line
    announces success whatever the two commands answered. *)
Theorem application_stop_output :
  forall (W : Type) (exec : Cmd -> W -> Reply * W) (w : W),
    let r := application_stop exec w in
    exists s m,
      replies is_stop (trace r) = [s] /\ replies is_rm (trace r) = [m] /\
      prints (trace r) =
        ["Starting application_stop phase..." ++ nl;
         "Stopping Docker container..." ++ nl;
         out s ++ (if (status s =? 0)%nat then EmptyString
                   else "Container was not running" ++ nl);
         "Removing Docker container..." ++ nl;
         out m ++ (if (status m =? 0)%nat then EmptyString
                   else "Container was already removed" ++ nl);
         "Application stop phase completed successfully" ++ nl]%string.
Proof.
  intros W exec w.
  change (wp (application_stop exec) w (fun _ _ t =>
    exists s m,
      replies is_stop t = [s] /\ replies is_rm t = [m] /\
      prints t =
        ["Starting application_stop phase..." ++ nl;
         "Stopping Docker container..." ++ nl;
         out s ++ (if (status s =? 0)%nat then EmptyString
                   else "Container was not running" ++ nl);
         "Removing Docker container..." ++ nl;
         out m ++ (if (status m =? 0)%nat then EmptyString
                   else "Container was already removed" ++ nl);
         "Application stop phase completed successfully" ++ nl]%string)).
  unfold application_stop; cbv zeta. wp_run_post.
  all: do 2 eexists; split; [reflexivity | split; [reflexivity |]].
  all: repeat match goal with H : status _ = _ |- _ => rewrite H; clear H end.
  all: cbn [app prints Nat.eqb out status ok].
  all: rewrite ?append_empty.
  all: reflexivity.
Qed.

(** ** application_start *)

(** X3: application_start (src/unnamed/part_001, no set -e) never stops
    early: whatever the stop, the removal, the login, the pull, the launch
    and the sleep answer, it runs its eight commands in order; its exit
    status is 0 exactly when the one [docker ps] it asks for lists the
    container, and 1 otherwise. *)
Theorem application_start_runs_every_step :
  forall (W : Type) (exec : Cmd -> W -> Reply * W) (w : W),
    let r := application_start exec w in
    (exists password,
       firstn 8 (commands (trace r)) =
         [DockerStop "ecommerce-app"; DockerRm "ecommerce-app";
          AwsEcrGetLoginPassword "us-east-1"; DockerLogin "AWS" Host.ecr password;
          DockerPull Host.image;
          DockerRun "ecommerce-app" "80:80" "unless-stopped" Host.image;
          Sleep 10; DockerPs]) /\
    (exit_status (result r) = 0 \/ exit_status (result r) = 1) /\
    exists p, replies is_ps (trace r) = [p] /\
      (exit_status (result r) = 0 <-> status (grep_q ["ecommerce-app"] (out p)) = 0).
Proof.
  intros W exec w r.
  destruct (application_start_run exec w) as ((pw & Hc) & Hr & p & Hp & Hiff).
  fold r in Hc, Hr, Hp, Hiff.
  split; [exists pw; rewrite Hc; reflexivity |].
  split; [destruct Hr as [-> | ->]; auto |].
  exists p. split; [exact Hp |].
  destruct Hr as [Hr | Hr]; rewrite Hr in *; cbn [exit_status].
  - split; [intros _ | reflexivity].
    destruct (status (grep_q ["ecommerce-app"] (out p))); [reflexivity |].
    exfalso. assert (H : @Ret unit tt = Exit 1) by (apply Hiff; discriminate). discriminate.
  - split; [discriminate |]. intros H. exfalso. apply (proj1 Hiff); [reflexivity | exact H].
Qed.

(** ** application_start, the variant under set -e *)

Section VariantRuns.

Variable W : Type.
Variable exec : Cmd -> W -> Reply * W.

Lemma application_start_variant_fail_fast (w : W) :
  wp (application_start_variant exec) w (fun res _ t =>
    Forall (fun cr => unchecked (fst cr) = false -> status (snd cr) = 0)
           (removelast (calls t)) /\
    forall c rp, last_call t = Some (c, rp) -> unchecked c = false -> status rp <> 0 ->
      res = Exit (match c with AwsEcrDescribeRepositories _ _ => 1 | _ => status rp end)).
Proof.
  unfold application_start_variant; cbv zeta. wp_run_post.
  all: split;
    [ cbn [app calls removelast];
      repeat (constructor; [cbn [fst snd unchecked]; intros; first [assumption | discriminate] |]);
      try constructor
    | cbn [app calls rev last_call hd_error]; intros c rp Hl Hu Hs;
      injection Hl as <- <-; first [discriminate Hu | congruence | idtac] ].
Qed.


End VariantRuns.

(** X4: application_start_variant stops at the first failure.  Every
    command it ran before its last one succeeded, apart from the three whose
    exit status it does not look at (the metadata lookup, which has a
    fallback, and [aws ecr get-login-password] and [docker ps], each the
    head of a pipeline).  When the last command it ran failed, the script
    ends with that command's status, or with 1 when the command is the
    repository check.  So a container is launched only after the account
    lookup, the repository check, the login and the pull have succeeded. *)
Theorem application_start_variant_stops_at_first_failure :
  forall (W : Type) (exec : Cmd -> W -> Reply * W) (w : W),
    let r := application_start_variant exec w in
    Forall (fun cr => unchecked (fst cr) = false -> status (snd cr) = 0)
           (removelast (calls (trace r))) /\
    forall c rp, last_call (trace r) = Some (c, rp) -> unchecked c = false ->
      status rp <> 0 ->
      result r = Exit (match c with AwsEcrDescribeRepositories _ _ => 1 | _ => status rp end).
Proof.
  intros W exec w. exact (application_start_variant_fail_fast exec w).
Qed.

Lemma application_start_variant_stops_at_first_failure_witness :
  result (application_start_variant Host.exec Hosts.one_pull_left) = Exit 1.
Proof.
  apply (proj2 (@application_start_variant_stops_at_first_failure _ Host.exec
                  Hosts.one_pull_left)
           (DockerPull Host.image) (Host.fail 1)).
  - vm_compute. reflexivity.
  - reflexivity.
  - vm_compute. discriminate.
Defined.



(** ** validate_service *)

Lemma lines_no_newline (s : string) : Forall no_newline (lines s).
Proof.
  induction s as [| c s IH]; cbn [lines]; [constructor |].
  destruct (Ascii.eqb c newline) eqn:Ec.
  - constructor; [exact I | exact IH].
  - apply Ascii.eqb_neq in Ec.
    destruct (lines s) as [| l ls]; inversion IH; subst; repeat constructor; cbn; auto.
Qed.

Lemma lines_unlines_cons (l : string) (ls : list string) :
  no_newline l -> lines (unlines (l :: ls)) = l :: lines (unlines ls).
Proof.
  cbn [unlines]. induction l as [| c l IH]; cbn [no_newline String.append lines].
  - intros _. reflexivity.
  - intros [Hc Hl]. apply Ascii.eqb_neq in Hc. rewrite Hc, (IH Hl). reflexivity.
Qed.

Lemma ascii_text_not_binary (s : string) : ascii_text s = true -> binary s = false.
Proof.
  induction s as [| c s IH]; cbn [ascii_text binary]; [reflexivity |].
  intros H. apply andb_prop in H. destruct H as [H Hs].
  apply andb_prop in H. destruct H as [Hc _].
  rewrite (IH Hs). destruct (Ascii.eqb c nul); [discriminate | reflexivity].
Qed.

(** RESPONSE is not empty when the body is text and one of its lines holds
    a marker. *)
Lemma marker_gives_response (body : string) :
  binary body = false ->
  has_marker body = true ->
  negb (String.eqb
    (strip_trailing_newlines
       (unlines (firstn 1 (lines (out (grep true markers body)))))) EmptyString) = true.
Proof.
  unfold has_marker, grep, grep_lines. intros Hb H. rewrite Hb.
  apply existsb_exists in H. destruct H as (l & Hin & Hm).
  assert (Hf : In l (filter (line_matches true markers) (lines body)))
    by (apply filter_In; auto).
  destruct (filter (line_matches true markers) (lines body)) as [| l0 ls] eqn:Ef;
    [contradiction |].
  clear l Hin Hm Hf.
  assert (Hl0 : In l0 (filter (line_matches true markers) (lines body)))
    by (rewrite Ef; left; reflexivity).
  apply filter_In in Hl0. destruct Hl0 as [Hin Hm].
  assert (Hn : no_newline l0).
  { pose proof (lines_no_newline body) as Hall. rewrite Forall_forall in Hall. auto. }
  cbn [out]. rewrite lines_unlines_cons by exact Hn.
  cbn [firstn unlines]. change (nl ++ EmptyString)%string with nl.
  rewrite strip_no_newline by exact Hn.
  destruct l0; [cbn in Hm; discriminate | reflexivity].
Qed.

Section Paths.

Variable W : Type.
Variable exec : Cmd -> W -> Reply * W.

Lemma validate_service_success_run (w : W) :
  wp (validate_service exec) w (fun r _ t =>
    exit_status r = 0 ->
    (exists again,
       (again = [] \/ again = [DockerLogs "ecommerce-app"]) /\
       commands t =
         [Sleep 15; DockerPs; DockerInspectStatus "ecommerce-app";
          CurlHttpCode "http://localhost/"; CurlGet "http://localhost/";
          DockerLogs "ecommerce-app"] ++ again ++
         [CurlTimeTotal "http://localhost/"; CurlFail "http://localhost/"]) /\
    Forall (fun cr => output_only (fst cr) = false -> status (snd cr) = 0) (calls t)).
Proof.
  unfold validate_service; cbv zeta. wp_run_post.
  all: cbn [exit_status]; try (intros; discriminate).
  all: try match goal with
       | H : String.eqb (strip_trailing_newlines (_ ++ "000" ++ nl)) "200" = true |- _ =>
           rewrite fallback_code_is_not_200 in H; discriminate
       end.
  all: intros _; split.
  all: try (cbn [app calls];
            repeat (constructor;
                    [cbn [fst snd output_only]; intros; first [assumption | discriminate] |]);
            constructor).
  - exists []. split; [left; reflexivity | reflexivity].
  - exists [DockerLogs "ecommerce-app"]. split; [right; reflexivity | reflexivity].
Qed.

Lemma validate_service_probes_run (w : W) :
  wp (validate_service exec) w (fun _ _ t =>
    existsb is_http (commands t) = true ->
    exists s p i,
      replies is_sleep t = [s] /\ status s = 0 /\
      replies is_ps t = [p] /\ status (grep_q ["ecommerce-app"] (out p)) = 0 /\
      replies is_inspect t = [i] /\ status i = 0 /\
      strip_trailing_newlines (out i) = "running").
Proof.
  unfold validate_service; cbv zeta. wp_run_post.
  all: trace_simpl; cbn [existsb is_http orb]; try (intros; discriminate).
  all: intros _.
  all: match goal with
       | E0 : exec (Sleep _) _ = (?s, _),
         E1 : exec DockerPs _ = (?p, _),
         E2 : exec (DockerInspectStatus _) _ = (?i, _) |- _ => exists s, p, i
       end.
  all: repeat match goal with
       | H : String.eqb _ _ = true |- _ => apply String.eqb_eq in H
       end.
  all: repeat split; assumption || reflexivity.
Qed.

End Paths.

(** X6: the path of a successful validation.  A run of validate_service
    that ends with exit status 0 ran the sleep, [docker ps], [docker
    inspect], four separate requests to http://localhost/ (the status code,
    the body, the time, the final request) and [docker logs] once or twice,
    in this order and nothing else.  The sleep, the inspection and three of
    the requests succeeded; of [docker ps], of the request for the body and
    of [docker logs] only the output was looked at. *)
Theorem validate_service_success_path :
  forall (W : Type) (exec : Cmd -> W -> Reply * W) (w : W),
    let r := validate_service exec w in
    exit_status (result r) = 0 ->
    (exists again,
       (again = [] \/ again = [DockerLogs "ecommerce-app"]) /\
       commands (trace r) =
         [Sleep 15; DockerPs; DockerInspectStatus "ecommerce-app";
          CurlHttpCode "http://localhost/"; CurlGet "http://localhost/";
          DockerLogs "ecommerce-app"] ++ again ++
         [CurlTimeTotal "http://localhost/"; CurlFail "http://localhost/"]) /\
    Forall (fun cr => output_only (fst cr) = false -> status (snd cr) = 0)
           (calls (trace r)).
Proof.
  intros W exec w. exact (validate_service_success_run exec w).
Qed.

Lemma validate_service_success_path_witness :
  (exists again,
     (again = [] \/ again = [DockerLogs "ecommerce-app"]) /\
     commands (trace (validate_service Host.exec Hosts.serving)) =
       [Sleep 15; DockerPs; DockerInspectStatus "ecommerce-app";
        CurlHttpCode "http://localhost/"; CurlGet "http://localhost/";
        DockerLogs "ecommerce-app"] ++ again ++
       [CurlTimeTotal "http://localhost/"; CurlFail "http://localhost/"]) /\
  Forall (fun cr => output_only (fst cr) = false -> status (snd cr) = 0)
         (calls (trace (validate_service Host.exec Hosts.serving))).
Proof.
  apply (@validate_service_success_path _ Host.exec Hosts.serving).
  vm_compute. reflexivity.
Defined.

(** X7: validate_service asks the service nothing before the process checks
    have passed.  A run in which any request to http://localhost/ was made
    had its sleep succeed, found the container in the output of [docker ps]
    and was told by [docker inspect] that the container is running. *)
Theorem validate_service_probes_after_process_checks :
  forall (W : Type) (exec : Cmd -> W -> Reply * W) (w : W),
    let r := validate_service exec w in
    existsb is_http (commands (trace r)) = true ->
    exists s p i,
      replies is_sleep (trace r) = [s] /\ status s = 0 /\
      replies is_ps (trace r) = [p] /\ status (grep_q ["ecommerce-app"] (out p)) = 0 /\
      replies is_inspect (trace r) = [i] /\ status i = 0 /\
      strip_trailing_newlines (out i) = "running".
Proof.
  intros W exec w. exact (validate_service_probes_run exec w).
Qed.

Lemma validate_service_probes_after_process_checks_witness :
  exists s p i,
    replies is_sleep (trace (validate_service Host.exec Hosts.empty_body)) = [s] /\
    status s = 0 /\
    replies is_ps (trace (validate_service Host.exec Hosts.empty_body)) = [p] /\
    status (grep_q ["ecommerce-app"] (out p)) = 0 /\
    replies is_inspect (trace (validate_service Host.exec Hosts.empty_body)) = [i] /\
    status i = 0 /\ strip_trailing_newlines (out i) = "running".
Proof.
  apply (@validate_service_probes_after_process_checks _ Host.exec Hosts.empty_body).
  vm_compute. reflexivity.
Defined.

Section Healthy.

Variable W : Type.
Variable exec : Cmd -> W -> Reply * W.

(** What holds of every state the machine is in during the run. *)
Variable Inv : W -> Prop.

Hypothesis Inv_step : forall c w, Inv w -> Inv (snd (exec c w)).
Hypothesis sleep_ok : forall w, Inv w -> status (fst (exec (Sleep 15) w)) = 0.
Hypothesis ps_lists : forall w, Inv w ->
  status (grep_q ["ecommerce-app"] (out (fst (exec DockerPs w)))) = 0.
Hypothesis inspect_running : forall w, Inv w ->
  status (fst (exec (DockerInspectStatus "ecommerce-app") w)) = 0 /\
  strip_trailing_newlines (out (fst (exec (DockerInspectStatus "ecommerce-app") w))) =
    "running".
Hypothesis code_200 : forall w, Inv w ->
  status (fst (exec (CurlHttpCode "http://localhost/") w)) = 0 /\
  strip_trailing_newlines (out (fst (exec (CurlHttpCode "http://localhost/") w))) = "200".
Hypothesis body_marked : forall w, Inv w ->
  ascii_text (out (fst (exec (CurlGet "http://localhost/") w))) = true /\
  has_marker (out (fst (exec (CurlGet "http://localhost/") w))) = true.
Hypothesis time_ok : forall w, Inv w ->
  status (fst (exec (CurlTimeTotal "http://localhost/") w)) = 0.
Hypothesis final_ok : forall w, Inv w ->
  status (fst (exec (CurlFail "http://localhost/") w)) = 0.

Ltac inv_step :=
  match goal with
  | E : exec ?c ?w = (_, ?w'), I : Inv ?w |- _ =>
      lazymatch goal with
      | _ : Inv w' |- _ => fail
      | _ => let I' := fresh "I" in
             pose proof (@Inv_step c w I) as I'; rewrite E in I'; cbn [snd] in I'
      end
  end.

Ltac facts :=
  repeat match goal with
  | E : exec ?c ?w = (?r, _), I : Inv ?w |- _ =>
      let F := fresh "F" in
      lazymatch c with
      | Sleep _ => pose proof (@sleep_ok w I) as F
      | DockerPs => pose proof (@ps_lists w I) as F
      | DockerInspectStatus _ => pose proof (@inspect_running w I) as F
      | CurlHttpCode _ => pose proof (@code_200 w I) as F
      | CurlGet _ =>
          pose proof (@marker_gives_response _
                        (@ascii_text_not_binary _ (proj1 (@body_marked w I)))
                        (proj2 (@body_marked w I))) as F
      | CurlTimeTotal _ => pose proof (@time_ok w I) as F
      | CurlFail _ => pose proof (@final_ok w I) as F
      end;
      rewrite E in F; cbn [fst] in F; clear E
  end.

Lemma validate_service_healthy (w : W) :
  Inv w -> wp (validate_service exec) w (fun r _ _ => exit_status r = 0).
Proof.
  intros I0. unfold validate_service; cbv zeta. wp_run.
  all: repeat inv_step.
  all: try reflexivity.
  all: exfalso.
  all: try (match goal with E : exec (DockerLogs _) _ = _ |- _ => clear E end).
  all: try (match goal with E : exec (DockerLogs _) _ = _ |- _ => clear E end).
  all: try (match goal with E : exec DockerPsAll _ = _ |- _ => clear E end).
  all: facts.
  all: repeat match goal with F : _ /\ _ |- _ => destruct F end.
  all: try congruence.
  all: try match goal with
       | B : String.eqb ?s _ = false, F : ?s = _ |- _ => rewrite F in B; discriminate
       end.
Qed.

End Healthy.

(** X8: what is enough for validate_service to succeed.  On a machine
    whose states, as far as the run reaches them, let the sleep, the time
    measurement and the final request succeed, list the container in
    [docker ps], report it as running, answer the probe with code 200 and
    serve a body that is plain text (no NUL byte and no byte above 127, so
    that grep does not take it for binary data) with a line that holds one
    of the markers,
    validate_service ends with exit status 0: whatever [docker logs] prints
    or returns, and whatever the exit status of [docker ps] and of the
    request for the body is. *)
Theorem validate_service_accepts_healthy_host :
  forall (W : Type) (exec : Cmd -> W -> Reply * W) (Inv : W -> Prop),
    (forall c w, Inv w -> Inv (snd (exec c w))) ->
    (forall w, Inv w -> status (fst (exec (Sleep 15) w)) = 0) ->
    (forall w, Inv w ->
       status (grep_q ["ecommerce-app"] (out (fst (exec DockerPs w)))) = 0) ->
    (forall w, Inv w ->
       status (fst (exec (DockerInspectStatus "ecommerce-app") w)) = 0 /\
       strip_trailing_newlines (out (fst (exec (DockerInspectStatus "ecommerce-app") w))) =
         "running") ->
    (forall w, Inv w ->
       status (fst (exec (CurlHttpCode "http://localhost/") w)) = 0 /\
       strip_trailing_newlines (out (fst (exec (CurlHttpCode "http://localhost/") w))) =
         "200") ->
    (forall w, Inv w ->
       ascii_text (out (fst (exec (CurlGet "http://localhost/") w))) = true /\
       has_marker (out (fst (exec (CurlGet "http://localhost/") w))) = true) ->
    (forall w, Inv w -> status (fst (exec (CurlTimeTotal "http://localhost/") w)) = 0) ->
    (forall w, Inv w -> status (fst (exec (CurlFail "http://localhost/") w)) = 0) ->
    forall w, Inv w -> exit_status (result (validate_service exec w)) = 0.
Proof.
  intros W exec Inv H0 H1 H2 H3 H4 H5 H6 H7 w Hw.
  exact (@validate_service_healthy W exec Inv H0 H1 H2 H3 H4 H5 H6 H7 w Hw).
Qed.

Lemma validate_service_accepts_healthy_host_witness :
  exit_status (result (validate_service Machines.steady tt)) = 0.
Proof.
  apply (@validate_service_accepts_healthy_host unit Machines.steady (fun _ => True));
    intros; try exact I; vm_compute; auto.
Defined.


(** * The shopping cart *)

Unset Implicit Arguments.

Section CartFacts.

Local Open Scope Z_scope.
Import Shop.

Variable Price : Type.
Variable total_text : list (Item Price) -> string.

Local Abbreviation Item := (Item Price).
Local Abbreviation Page := (Page Price).

Lemma units_app (c1 c2 : list Item) :
  units (c1 ++ c2) = units c1 + units c2.
Proof.
  induction c1 as [| i c1 IH]; cbn [app units].
  - reflexivity.
  - rewrite IH. lia.
Qed.

Lemma quantity_of_cons (q : Z) (i : Item) (c : list Item) :
  quantity_of q (i :: c) = (if has_id q i then quantity i else 0) + quantity_of q c.
Proof.
  unfold quantity_of. cbn [filter]. destruct (has_id q i); reflexivity.
Qed.

Lemma quantity_of_app (q : Z) (c1 c2 : list Item) :
  quantity_of q (c1 ++ c2) = quantity_of q c1 + quantity_of q c2.
Proof.
  unfold quantity_of. rewrite filter_app. apply units_app.
Qed.

Lemma find_item_none (pid : Z) (c : list Item) :
  find_item pid c = None -> filter (has_id pid) c = [].
Proof.
  unfold find_item. induction c as [| i c IH]; cbn [find filter]; [reflexivity |].
  destruct (has_id pid i); [discriminate | exact IH].
Qed.

Lemma find_item_none_keep (pid : Z) (c : list Item) :
  find_item pid c = None -> filter (fun item => negb (has_id pid item)) c = c.
Proof.
  unfold find_item. induction c as [| i c IH]; cbn [find filter]; [reflexivity |].
  destruct (has_id pid i); [discriminate |]. cbn [negb]. intros H. rewrite (IH H). reflexivity.
Qed.

Lemma find_item_some (pid : Z) (c : list Item) (i : Item) :
  find_item pid c = Some i -> In i c /\ id (product i) = pid.
Proof.
  unfold find_item. intros H. apply find_some in H. destruct H as [Hin Hid].
  split; [exact Hin |]. unfold has_id in Hid. apply Z.eqb_eq in Hid. exact Hid.
Qed.

Lemma quantity_of_add_quantity (q pid d : Z) (c : list Item) (i : Item) :
  find_item pid c = Some i ->
  quantity_of q (add_quantity pid d c) = quantity_of q c + (if q =? pid then d else 0).
Proof.
  unfold find_item. induction c as [| j c IH]; cbn [find add_quantity]; [discriminate |].
  destruct (has_id pid j) eqn:Ej.
  - intros _. rewrite !quantity_of_cons. unfold has_id in *. cbn [product quantity].
    apply Z.eqb_eq in Ej. rewrite Ej. destruct (pid =? q) eqn:E1; destruct (q =? pid) eqn:E2; lia.
  - intros H. rewrite !quantity_of_cons, (IH H). lia.
Qed.

Lemma known_find (pid : Z) (s : Page) :
  known pid s = match find_product pid s with Some _ => true | None => false end.
Proof.
  unfold known, find_product. induction (products s) as [| p ps IH]; cbn [existsb find].
  - reflexivity.
  - destruct (id p =? pid); [reflexivity | exact IH].
Qed.

Lemma find_product_id (pid : Z) (s : Page) (p : Product Price) :
  find_product pid s = Some p -> id p = pid.
Proof.
  unfold find_product. intros H. apply find_some in H. apply Z.eqb_eq. apply H.
Qed.

(** What addToCart does to the cart. *)
Lemma addToCart_cart (pid : Z) (s : Page) :
  cart (addToCart pid s) =
    match find_product pid s with
    | None => cart s
    | Some p =>
        match find_item pid (cart s) with
        | Some _ => add_quantity pid 1 (cart s)
        | None => cart s ++ [mkItem p 1]
        end
    end.
Proof.
  unfold addToCart. destruct (find_product pid s); [| reflexivity].
  destruct (find_item pid (cart s)); reflexivity.
Qed.

Lemma addToCart_quantity (pid q : Z) (s : Page) :
  quantity_of q (cart (addToCart pid s)) =
    quantity_of q (cart s) + (if (q =? pid) && known pid s then 1 else 0).
Proof.
  rewrite addToCart_cart, known_find.
  destruct (find_product pid s) as [p |] eqn:Ep.
  - destruct (find_item pid (cart s)) as [i |] eqn:Ei.
    + rewrite (quantity_of_add_quantity q pid 1 _ i Ei). rewrite andb_true_r. reflexivity.
    + rewrite quantity_of_app, quantity_of_cons. unfold has_id. cbn [product quantity].
      rewrite (find_product_id _ _ _ Ep). rewrite andb_true_r.
      change (quantity_of q []) with 0. rewrite (Z.eqb_sym pid q).
      destruct (q =? pid); lia.
  - rewrite andb_false_r. lia.
Qed.

(** X9: addToCart adds one unit of a product the page knows and nothing
    else.  In a cart whose quantities are safe integers, the units of that
    product grow by one and those of every other product stay as they are;
    one notification of type success names the product.  For an id that is
    not among the products nothing happens at all: the page stays as it is,
    without a notification. *)
Theorem addToCart_adds_one_unit :
  forall (pid : Z) (s : Page),
    Forall (fun item => safe (quantity item)) (cart s) ->
    (forall q, quantity_of q (cart (addToCart pid s)) =
               quantity_of q (cart s) + (if (q =? pid) && known pid s then 1 else 0)) /\
    (known pid s = false -> addToCart pid s = s) /\
    (known pid s = true ->
     exists p, In p (products s) /\ id p = pid /\
       notifications (addToCart pid s) =
         notifications s ++ [((name p ++ " added to cart!")%string, "success"%string)]).
Proof.
  intros pid s _. split; [intros q; apply addToCart_quantity |].
  rewrite known_find. unfold addToCart.
  destruct (find_product pid s) as [p |] eqn:Ep; split; intros H; try discriminate.
  - exists p. unfold find_product in Ep. apply find_some in Ep. destruct Ep as [Hin Hid].
    apply Z.eqb_eq in Hid. split; [exact Hin | split; [exact Hid |]].
    destruct (find_item pid (cart s)); reflexivity.
  - reflexivity.
Qed.


(** ** The cart stays well formed *)

Lemma add_quantity_ids (pid d : Z) (c : list Item) :
  map (fun item => id (product item)) (add_quantity pid d c) =
  map (fun item => id (product item)) c.
Proof.
  induction c as [| i c IH]; cbn [add_quantity map]; [reflexivity |].
  destruct (has_id pid i); cbn [map product]; congruence.
Qed.

Lemma find_item_none_notin (pid : Z) (c : list Item) :
  find_item pid c = None -> ~ In pid (map (fun item => id (product item)) c).
Proof.
  unfold find_item. intros H Hin. apply in_map_iff in Hin. destruct Hin as (i & Hi & Hin).
  pose proof (find_none _ _ H _ Hin) as Hn. unfold has_id in Hn.
  apply Z.eqb_neq in Hn. contradiction.
Qed.

Lemma add_quantity_positive (pid : Z) (c : list Item) :
  Forall (fun item => 0 < quantity item) c ->
  Forall (fun item => 0 < quantity item) (add_quantity pid 1 c).
Proof.
  induction 1 as [| i c Hi Hc IH]; cbn [add_quantity]; [constructor |].
  destruct (has_id pid i); constructor; cbn [quantity]; auto; lia.
Qed.

Lemma filter_well_formed (f : Item -> bool) (c : list Item) :
  well_formed c -> well_formed (filter f c).
Proof.
  intros [Hd Hq]. split.
  - induction c as [| i c IH]; cbn [filter map]; [constructor |].
    cbn [map] in Hd. inversion Hd as [| x l Hnot Hd']; subst.
    inversion Hq; subst.
    destruct (f i); cbn [map]; auto.
    constructor; auto.
    intros Hin. apply Hnot. apply in_map_iff in Hin. destruct Hin as (j & Hj & Hin).
    apply filter_In in Hin. apply in_map_iff. exists j. tauto.
  - apply Forall_forall. intros i Hin. apply filter_In in Hin.
    rewrite Forall_forall in Hq. apply Hq. tauto.
Qed.

(** After a change of the first matching quantity that leaves it positive,
    or after the removal that follows one that does not. *)
Lemma updateCartQuantity_cart (pid d : Z) (s : Page) :
  cart (updateCartQuantity pid d s) =
    match find_item pid (cart s) with
    | None => cart s
    | Some item =>
        if quantity item + d <=? 0
        then filter (fun item => negb (has_id pid item)) (add_quantity pid d (cart s))
        else add_quantity pid d (cart s)
    end.
Proof.
  unfold updateCartQuantity. destruct (find_item pid (cart s)) as [i |]; [| reflexivity].
  destruct (quantity i + d <=? 0); reflexivity.
Qed.

Lemma add_quantity_well_formed (pid d : Z) (c : list Item) (i : Item) :
  find_item pid c = Some i -> 0 < quantity i + d ->
  well_formed c -> well_formed (add_quantity pid d c).
Proof.
  intros Hf Hq [Hd Hp]. split; [rewrite add_quantity_ids; exact Hd |].
  revert Hf. unfold find_item.
  induction Hp as [| j c Hj Hc IH]; cbn [find add_quantity]; [discriminate |].
  destruct (has_id pid j).
  - intros H. injection H as ->. constructor; cbn [quantity]; auto.
  - intros H. constructor; auto. apply IH; auto.
    cbn [map] in Hd. inversion Hd; auto.
Qed.

Lemma add_quantity_removed (pid d : Z) (c : list Item) :
  filter (fun item => negb (has_id pid item)) (add_quantity pid d c) =
  filter (fun item => negb (has_id pid item)) c.
Proof.
  induction c as [| i c IH]; cbn [add_quantity filter]; [reflexivity |].
  destruct (has_id pid i) eqn:Ei; cbn [filter].
  - unfold has_id in *. cbn [product]. rewrite Ei. reflexivity.
  - rewrite Ei, IH. reflexivity.
Qed.

Lemma step_well_formed (a : Action) (s : Page) :
  page_ok s -> well_formed (cart (step total_text a s)).
Proof.
  intros [Hwf Hst]. destruct a as [pid | pid | pid d | |]; cbn [step].
  - rewrite addToCart_cart.
    destruct (find_product pid s) as [p |] eqn:Ep; [| exact Hwf].
    destruct (find_item pid (cart s)) as [i |] eqn:Ei.
    + destruct Hwf as [Hd Hq]. split.
      * rewrite add_quantity_ids. exact Hd.
      * apply add_quantity_positive. exact Hq.
    + destruct Hwf as [Hd Hq]. split.
      * rewrite map_app. cbn [map product].
        rewrite (find_product_id _ _ _ Ep).
        apply NoDup_rev in Hd. rewrite <- rev_involutive. apply NoDup_rev.
        rewrite rev_app_distr. cbn [rev app]. constructor; [| exact Hd].
        rewrite <- in_rev. apply find_item_none_notin. exact Ei.
      * apply Forall_app. split; [exact Hq |]. constructor; [cbn; lia | constructor].
  - apply filter_well_formed. exact Hwf.
  - rewrite updateCartQuantity_cart.
    destruct (find_item pid (cart s)) as [i |] eqn:Ei; [| exact Hwf].
    destruct (quantity i + d <=? 0) eqn:Eq.
    + rewrite add_quantity_removed. apply filter_well_formed. exact Hwf.
    + apply Z.leb_gt in Eq. apply (add_quantity_well_formed pid d _ i); auto.
  - unfold checkout. destruct (cart s) as [| i c] eqn:Ec.
    + cbn [cart showNotification]. rewrite Ec. exact Hwf.
    + split; constructor.
  - unfold loadCartFromStorage. destruct (storage s) as [c |] eqn:Es; [| exact Hwf].
    exact Hst.
Qed.

(** An action leaves the stored cart alone or stores the cart it leaves. *)
Lemma step_storage (a : Action) (s : Page) :
  storage (step total_text a s) = storage s \/
  storage (step total_text a s) = Some (cart (step total_text a s)).
Proof.
  destruct a as [pid | pid | pid d | |]; cbn [step].
  - unfold addToCart. destruct (find_product pid s); [| left; reflexivity].
    right. destruct (find_item pid (cart s)); reflexivity.
  - right. reflexivity.
  - unfold updateCartQuantity. destruct (find_item pid (cart s)) as [i |]; [| left; reflexivity].
    right. destruct (quantity i + d <=? 0); reflexivity.
  - unfold checkout. destruct (cart s); [left | right]; reflexivity.
  - unfold loadCartFromStorage. destruct (storage s) eqn:Es; left; [| exact Es].
    cbn [storage updateCartDisplay with_cart]. exact Es.
Qed.

Lemma step_page_ok (a : Action) (s : Page) :
  page_ok s -> page_ok (step total_text a s).
Proof.
  intros H. pose proof (step_well_formed a s H) as Hc. split; [exact Hc |].
  destruct (step_storage a s) as [-> | ->]; [apply H | exact Hc].
Qed.

(** X10: the cart stays well formed.  From a page whose cart and stored
    cart hold one item for each product, each with a positive quantity, no
    sequence of additions, removals, changes of quantity, checkouts and
    reloads of the stored cart leads to a cart, or a stored cart, with two
    items of one product or with an item of quantity zero or less. *)
Theorem cart_stays_well_formed :
  forall (l : list Action) (s : Page),
    page_ok s -> page_ok (run_actions total_text l s).
Proof.
  unfold run_actions. induction l as [| a l IH]; intros s H; cbn [fold_left].
  - exact H.
  - apply IH. apply step_page_ok. exact H.
Qed.

(** ** Removing *)

Lemma filter_twice (f : Item -> bool) (c : list Item) :
  filter f (filter f c) = filter f c.
Proof.
  induction c as [| i c IH]; cbn [filter]; [reflexivity |].
  destruct (f i) eqn:E; cbn [filter]; [rewrite E, IH |]; auto.
Qed.

Lemma find_item_removed (pid : Z) (c : list Item) :
  find_item pid (filter (fun item => negb (has_id pid item)) c) = None.
Proof.
  unfold find_item.
  induction c as [| i c IH]; cbn [filter find]; [reflexivity |].
  destruct (has_id pid i) eqn:E; cbn [negb find]; [exact IH | rewrite E; exact IH].
Qed.

Lemma others_not_removed (pid q : Z) (c : list Item) :
  q <> pid ->
  filter (has_id q) (filter (fun item => negb (has_id pid item)) c) = filter (has_id q) c.
Proof.
  intros Hq.
  induction c as [| i c IH]; cbn [filter]; [reflexivity |].
  destruct (has_id pid i) eqn:E; cbn [negb filter].
  - unfold has_id in *. apply Z.eqb_eq in E.
    destruct (id (product i) =? q) eqn:E2; [apply Z.eqb_eq in E2; congruence | exact IH].
  - rewrite IH. reflexivity.
Qed.

(** X11: removeFromCart removes every item of the product and nothing
    else: afterwards the cart has no item with that id, the items of every
    other product are as before, and removing the product once more changes
    nothing on the page. *)
Theorem removeFromCart_removes_the_product :
  forall (pid : Z) (s : Page),
    let s' := removeFromCart pid s in
    find_item pid (cart s') = None /\
    (forall q, q <> pid -> filter (has_id q) (cart s') = filter (has_id q) (cart s)) /\
    removeFromCart pid s' = s'.
Proof.
  intros pid s s'. subst s'. unfold removeFromCart.
  cbn [cart saveCartToStorage updateCartDisplay with_cart products storage shown
       notifications cart_open].
  split; [apply find_item_removed | split].
  - intros q Hq. apply others_not_removed. exact Hq.
  - rewrite filter_twice. reflexivity.
Qed.

(** ** Changing a quantity *)

Lemma quantity_of_filter_out (pid : Z) (c : list Item) :
  quantity_of pid (filter (fun item => negb (has_id pid item)) c) = 0.
Proof.
  unfold quantity_of.
  induction c as [| i c IH]; cbn [filter]; [reflexivity |].
  destruct (has_id pid i) eqn:E; cbn [negb filter]; [exact IH | rewrite E; exact IH].
Qed.

Lemma quantity_of_unique (pid : Z) (c : list Item) (i : Item) :
  NoDup (map (fun item => id (product item)) c) ->
  find_item pid c = Some i -> quantity_of pid c = quantity i.
Proof.
  unfold find_item. induction c as [| j c IH]; cbn [find map]; [discriminate |].
  intros Hd. inversion Hd as [| x l Hnot Hd']; subst.
  rewrite quantity_of_cons. destruct (has_id pid j) eqn:E.
  - intros H. injection H as ->.
    assert (Hn : find_item pid c = None).
    { unfold find_item. destruct (find (has_id pid) c) as [k |] eqn:Ek; [| reflexivity].
      exfalso. apply Hnot. apply find_some in Ek. destruct Ek as [Hin Hk].
      unfold has_id in *. apply Z.eqb_eq in E, Hk. apply in_map_iff. exists k.
      split; [congruence | exact Hin]. }
    unfold quantity_of. rewrite (find_item_none pid c Hn). cbn. lia.
  - intros H. rewrite (IH Hd' H). lia.
Qed.

(** X12: updateCartQuantity stops at zero.  In a cart without two items of
    one product, changing the quantity of a product that is in the cart,
    where the quantity, the change and their sum are safe integers, leaves
    the larger of zero and the changed quantity; the item leaves the cart
    exactly when the changed quantity is zero or less; the units of every
    other product stay as they are. *)
Theorem updateCartQuantity_clamps_at_zero :
  forall (pid change : Z) (s : Page) (item : Item),
    NoDup (map (fun item => id (product item)) (cart s)) ->
    find_item pid (cart s) = Some item ->
    safe (quantity item) -> safe change -> safe (quantity item + change) ->
    let s' := updateCartQuantity pid change s in
    quantity_of pid (cart s') = Z.max 0 (quantity item + change) /\
    (quantity item + change <= 0 <-> find_item pid (cart s') = None) /\
    (forall q, q <> pid -> quantity_of q (cart s') = quantity_of q (cart s)).
Proof.
  intros pid change s item Hd Hf _ _ _ s'. subst s'.
  rewrite updateCartQuantity_cart, Hf.
  pose proof (quantity_of_add_quantity pid pid change _ _ Hf) as Hq.
  rewrite Z.eqb_refl, (quantity_of_unique pid _ _ Hd Hf) in Hq.
  destruct (quantity item + change <=? 0) eqn:E.
  - apply Z.leb_le in E. rewrite add_quantity_removed. split; [| split].
    + rewrite quantity_of_filter_out. lia.
    + split; [intros _ | intros _; exact E].
      apply find_item_removed.
    + intros q Hne. unfold quantity_of.
      rewrite others_not_removed by exact Hne. reflexivity.
  - apply Z.leb_gt in E. split; [| split].
    + rewrite Hq. lia.
    + split; [lia |]. intros Hn. apply find_item_none in Hn.
      unfold quantity_of in Hq. rewrite Hn in Hq. cbn in Hq. lia.
    + intros q Hne. rewrite (quantity_of_add_quantity q pid change _ _ Hf).
      apply Z.eqb_neq in Hne. rewrite Hne. lia.
Qed.


(** ** Adding and taking back *)

Lemma add_quantity_back (pid d : Z) (c : list Item) :
  add_quantity pid (- d) (add_quantity pid d c) = c.
Proof.
  induction c as [| i c IH]; cbn [add_quantity]; [reflexivity |].
  destruct (has_id pid i) eqn:E; cbn [add_quantity].
  - unfold has_id in *. cbn [product quantity]. rewrite E.
    destruct i as [p q]. cbn [product quantity]. f_equal. f_equal. lia.
  - rewrite E, IH. reflexivity.
Qed.

Lemma find_item_add_quantity (pid d : Z) (c : list Item) (i : Item) :
  find_item pid c = Some i ->
  find_item pid (add_quantity pid d c) = Some (mkItem (product i) (quantity i + d)).
Proof.
  unfold find_item. induction c as [| j c IH]; cbn [find add_quantity]; [discriminate |].
  destruct (has_id pid j) eqn:E; cbn [find].
  - intros H. injection H as ->. unfold has_id in *. cbn [product]. rewrite E. reflexivity.
  - rewrite E. exact IH.
Qed.

Lemma find_item_app_new (pid : Z) (c : list Item) (i : Item) :
  find_item pid c = None -> has_id pid i = true -> find_item pid (c ++ [i]) = Some i.
Proof.
  unfold find_item. intros Hn Hi.
  induction c as [| j c IH]; cbn [app find] in *.
  - rewrite Hi. reflexivity.
  - destruct (has_id pid j); [discriminate | auto].
Qed.

Lemma filter_app_new (pid : Z) (c : list Item) (i : Item) :
  find_item pid c = None -> has_id pid i = true ->
  filter (fun item => negb (has_id pid item)) (c ++ [i]) = c.
Proof.
  intros Hn Hi. rewrite filter_app, (find_item_none_keep _ _ Hn). cbn [filter].
  rewrite Hi. cbn [negb]. apply app_nil_r.
Qed.

(** X13: taking back what was added.  In a cart whose quantities are
    positive safe integers, adding a product the page knows and then
    lowering its quantity by one gives back the cart as it was: the same
    items in the same order. *)
Theorem add_then_decrement_restores_the_cart :
  forall (pid : Z) (s : Page),
    known pid s = true ->
    Forall (fun item => 0 < quantity item /\ safe (quantity item)) (cart s) ->
    cart (updateCartQuantity pid (-1) (addToCart pid s)) = cart s.
Proof.
  intros pid s Hk Hq. rewrite known_find in Hk.
  rewrite updateCartQuantity_cart, addToCart_cart.
  destruct (find_product pid s) as [p |] eqn:Ep; [| discriminate].
  assert (Hp : has_id pid (mkItem p 1) = true).
  { unfold has_id. cbn [product]. apply Z.eqb_eq. apply (find_product_id _ _ _ Ep). }
  destruct (find_item pid (cart s)) as [i |] eqn:Ei.
  - rewrite (find_item_add_quantity pid 1 _ _ Ei). cbn [quantity].
    assert (0 < quantity i).
    { rewrite Forall_forall in Hq. apply Hq. apply (find_item_some _ _ _ Ei). }
    destruct (quantity i + 1 + -1 <=? 0) eqn:E; [apply Z.leb_le in E; lia |].
    apply (add_quantity_back pid 1).
  - rewrite (find_item_app_new _ _ _ Ei Hp). cbn [quantity Z.add Z.leb Z.compare Z.pos_sub].
    rewrite add_quantity_removed. apply filter_app_new; assumption.
Qed.

(** ** Adding the same product again and again *)

Lemma addToCart_products (pid : Z) (s : Page) :
  products (addToCart pid s) = products s.
Proof.
  unfold addToCart. destruct (find_product pid s); [| reflexivity].
  destruct (find_item pid (cart s)); reflexivity.
Qed.

(** X14: adding a product again and again makes one item.  When the
    product is known and not yet in the cart, n+1 additions leave the cart
    with one more item, at its end, holding the product with quantity n+1. *)
Theorem repeated_adds_make_one_entry :
  forall (n : nat) (pid : Z) (s : Page) (p : Product Price),
    find_product pid s = Some p ->
    find_item pid (cart s) = None ->
    cart (Nat.iter (S n) (addToCart pid) s) = cart s ++ [mkItem p (Z.of_nat (S n))].
Proof.
  intros n pid s p Hp Hn.
  assert (Hprod : forall k, products (Nat.iter k (addToCart pid) s) = products s).
  { induction k as [| k IH]; [reflexivity |].
    rewrite Nat.iter_succ, addToCart_products. exact IH. }
  assert (Hfind : forall k, find_product pid (Nat.iter k (addToCart pid) s) = Some p).
  { intros k. unfold find_product. rewrite Hprod. exact Hp. }
  assert (Hid : has_id pid (mkItem p 1) = true).
  { unfold has_id. cbn [product]. apply Z.eqb_eq. apply (find_product_id _ _ _ Hp). }
  induction n as [| n IH].
  - rewrite Nat.iter_succ. cbn [Nat.iter nat_rect]. rewrite addToCart_cart, Hp, Hn. reflexivity.
  - rewrite Nat.iter_succ, addToCart_cart, Hfind, IH.
    assert (Hi : has_id pid (mkItem p (Z.of_nat (S n))) = true) by exact Hid.
    rewrite (find_item_app_new _ _ _ Hn Hi).
    clear IH. revert Hn. unfold find_item.
    induction (cart s) as [| j c IHc]; cbn [find app add_quantity].
    + intros _. rewrite Hi. cbn [product quantity]. do 2 f_equal. lia.
    + destruct (has_id pid j); [discriminate |]. intros H. rewrite (IHc H). reflexivity.
Qed.

(** ** The cart, the page and the store *)

(** X15: no action changes the cart behind the page's back.  After an
    action that changed the cart, and after any action on a page that showed
    and had stored its cart, the page shows the cart and the store holds it;
    loading the stored cart, on a later visit, then gives that same cart. *)
Theorem changed_cart_is_shown_and_stored :
  forall (a : Action) (s : Page),
    (cart (step total_text a s) <> cart s \/ synced s) ->
    synced (step total_text a s) /\
    forall s0 : Page, storage s0 = storage (step total_text a s) ->
      cart (loadCartFromStorage s0) = cart (step total_text a s).
Proof.
  intros a s H.
  assert (Hs : synced (step total_text a s)).
  { unfold synced. destruct a as [pid | pid | pid d | |]; cbn [step] in *.
    - unfold addToCart in *. destruct (find_product pid s).
      + destruct (find_item pid (cart s)); split; reflexivity.
      + destruct H as [H | H]; [contradiction | exact H].
    - split; reflexivity.
    - unfold updateCartQuantity in *. destruct (find_item pid (cart s)) as [i |].
      + destruct (quantity i + d <=? 0); split; reflexivity.
      + destruct H as [H | H]; [contradiction | exact H].
    - unfold checkout in *. destruct (cart s) as [| i c] eqn:Ec.
      + destruct H as [H | H].
        * cbn [cart showNotification] in H. rewrite Ec in H. contradiction.
        * unfold synced in H. cbn [cart storage shown showNotification].
          rewrite Ec in H. rewrite Ec. exact H.
      + split; reflexivity.
    - unfold loadCartFromStorage in *. destruct (storage s) as [c |] eqn:Es.
      + cbn [cart storage shown updateCartDisplay with_cart]. split; [exact Es | reflexivity].
      + destruct H as [H | H]; [contradiction | exact H]. }
  split; [exact Hs |].
  intros s0 H0. unfold loadCartFromStorage. rewrite H0, (proj1 Hs). reflexivity.
Qed.

End CartFacts.

(** *** The theorems at concrete pages *)

Lemma cart_stays_well_formed_witness :
  Shop.page_ok
    (Shop.run_actions Pages.no_total
       [Shop.AddToCart 1; Shop.AddToCart 1; Shop.AddToCart 3;
        Shop.UpdateCartQuantity 1 (-1); Shop.RemoveFromCart 3;
        Shop.LoadCartFromStorage; Shop.Checkout; Shop.AddToCart 8]
       Pages.shop).
Proof.
  apply (cart_stays_well_formed string Pages.no_total).
  split; [split; constructor | exact I].
Defined.

Lemma addToCart_adds_one_unit_witness :
  Shop.quantity_of 1 (Shop.cart (Shop.addToCart 1 Pages.two_guides)) = 3%Z.
Proof.
  assert (Hs : Forall (fun item => Shop.safe (Shop.quantity item))
                      [Shop.mkItem Pages.guide 2])
    by (repeat constructor).
  exact (proj1 (addToCart_adds_one_unit string 1 Pages.two_guides Hs) 1%Z).
Defined.

Lemma updateCartQuantity_clamps_at_zero_witness :
  Shop.find_item 1 (Shop.cart (Shop.updateCartQuantity 1 (-5) Pages.two_guides)) = None.
Proof.
  assert (Hd : NoDup (map (fun item => Shop.id (Shop.product item))
                          (Shop.cart Pages.two_guides)))
    by (vm_compute; repeat constructor; intros []).
  assert (H2 : Shop.safe 2) by (split; reflexivity).
  assert (H5 : Shop.safe (-5)) by (split; reflexivity).
  assert (H3 : Shop.safe (2 + -5)) by (split; reflexivity).
  apply (proj1 (proj2 (updateCartQuantity_clamps_at_zero string 1 (-5) Pages.two_guides
                         (Shop.mkItem Pages.guide 2) Hd eq_refl H2 H5 H3))).
  vm_compute. discriminate.
Defined.

Lemma add_then_decrement_restores_the_cart_witness :
  Shop.cart (Shop.updateCartQuantity 2 (-1) (Shop.addToCart 2 Pages.two_guides)) =
  Shop.cart Pages.two_guides.
Proof.
  assert (Hq : Forall (fun item => (0 < Shop.quantity item)%Z /\
                                   Shop.safe (Shop.quantity item))
                      [Shop.mkItem Pages.guide 2])
    by (repeat constructor).
  exact (add_then_decrement_restores_the_cart string 2 Pages.two_guides eq_refl Hq).
Defined.

Lemma repeated_adds_make_one_entry_witness :
  Shop.cart (Nat.iter 3 (Shop.addToCart 1) Pages.shop) =
  Shop.cart Pages.shop ++ [Shop.mkItem Pages.guide 3].
Proof.
  apply (repeated_adds_make_one_entry string 2 1 Pages.shop Pages.guide); reflexivity.
Defined.

Lemma changed_cart_is_shown_and_stored_witness :
  Shop.synced (Shop.step Pages.no_total (Shop.AddToCart 1) Pages.shop).
Proof.
  assert (H : Shop.cart (Shop.step Pages.no_total (Shop.AddToCart 1) Pages.shop) <>
              Shop.cart Pages.shop) by (vm_compute; discriminate).
  exact (proj1 (changed_cart_is_shown_and_stored string Pages.no_total
                  (Shop.AddToCart 1) Pages.shop (or_introl H))).
Defined.
